(** * Kubernetes Cluster Monitor API (src/main.py): a shallow embedding

    The service is a set of randomised data generators behind four GET
    endpoints.  Its only effects are draws from Python's [random] module,
    reads of the wall clock ([datetime.now]) and one [time.sleep].  They are
    modelled by a state monad over a [World] holding the generator's output
    tape, a cursor into it, and the clock.

    Numbers.  Python [int] is [Z].  Python [float] is modelled by exact
    rationals [Q], where the code computes in binary64: at some draws the
    value computed here differs from the code's in the last decimal
    (a rounded metric by one hundredth, a timestamp by one microsecond,
    the level of a log line at the three draws equal to an accumulated
    weight).  The properties below are therefore about ranges, order and
    membership, which binary64 keeps, and none gives the value of a float
    at a draw.  [datetime] is the
    number of microseconds since 0001-01-01 00:00:00 (the resolution of
    Python's datetime), [timedelta] a number of microseconds. *)

From Stdlib Require Import ZArith QArith Qround List String Ascii Bool Lia.
From Stdlib Require Import Permutation Sorted DecimalString.
From Stdlib Require DecimalFacts DecimalPos DecimalZ.
Import ListNotations.

Local Open Scope Z_scope.

(** ** Rounding *)

Module Py.

(** [round(x)] of Python: nearest integer, ties to the even one. *)
Definition round_half_even (q : Q) : Z :=
  let f := Qfloor q in
  match Qcompare (q - inject_Z f) (1 # 2) with
  | Lt => f
  | Gt => f + 1
  | Eq => if Z.even f then f else f + 1
  end.

(** [round(x, 2)]: the nearest multiple of 1/100, ties to even. *)
Definition round2 (q : Q) : Q :=
  Qmake (round_half_even (q * inject_Z 100)) 100.

(** [x > y] on floats. *)
Definition gtb (x y : Q) : bool := negb (Qle_bool x y).

(** [x < y] on floats. *)
Definition ltb (x y : Q) : bool := negb (Qle_bool y x).

(** [str(n)] for an integer. *)
Definition str (n : Z) : string := NilZero.string_of_int (Z.to_int n).

(** [sep.join(parts)]. *)
Fixpoint join (sep : string) (parts : list string) : string :=
  match parts with
  | [] => EmptyString
  | [p] => p
  | p :: rest => p ++ sep ++ join sep rest
  end.

End Py.

(** ** The world: random tape and clock

    Every handler reads the clock at most once, so the clock of the world
    is the time of the request; only [time.sleep] moves it. *)

Record World := mkWorld {
  tape : nat -> Z;   (* successive raw outputs of the generator *)
  cursor : nat;      (* how many of them were consumed *)
  clock : Z          (* local wall clock, microseconds since 0001-01-01 *)
}.

Definition M (A : Type) : Type := World -> A * World.

Definition ret {A} (a : A) : M A := fun w => (a, w).

Definition bind {A B} (m : M A) (k : A -> M B) : M B :=
  fun w => let (a, w') := m w in k a w'.

Declare Scope py_scope.
Delimit Scope py_scope with py.
Notation "x <- m ;; k" := (bind m (fun x => k))
  (at level 61, m at next level, right associativity) : py_scope.
Notation "m ;;; k" := (bind m (fun _ => k))
  (at level 61, right associativity) : py_scope.
Local Open Scope py_scope.

(** A list comprehension [[f(x) for x in xs]] with an effectful [f]. *)
Fixpoint mapM {A B} (f : A -> M B) (xs : list A) : M (list B) :=
  match xs with
  | [] => ret []
  | x :: rest => y <- f x ;; ys <- mapM f rest ;; ret (y :: ys)
  end.

(** [[body for _ in range(n)]]: the body run [n] times, results in order. *)
Fixpoint repeatM {A} (n : nat) (body : M A) : M (list A) :=
  match n with
  | O => ret []
  | S n' => y <- body ;; ys <- repeatM n' body ;; ret (y :: ys)
  end.

(** ** Python's [random] module

    [random()] is a 53-bit integer divided by 2^53 (CPython's
    genrand_res53); the tape supplies the integers.  [uniform] and
    [choices] are written as in Lib/random.py.  [randint] and [choice]
    draw an index below [n]; CPython does it by rejection sampling on
    [getrandbits], here it is [floor(u * n)] for one draw [u].  The two
    have the same range of results, but not the same number of generator
    outputs per call nor the same result for a given output.  So the
    properties below do not count the outputs a call consumes; and where
    one relates an output to the index it selects (the even split of the
    root endpoint) it speaks of this way of drawing the index. *)

Module Random.

Definition two53 : positive := 9007199254740992.

Definition random : M Q :=
  fun w => (Qmake (tape w (cursor w) mod Zpos two53) two53,
            mkWorld (tape w) (S (cursor w)) (clock w)).

(** [a + (b - a) * random()] *)
Definition uniform (a b : Q) : M Q :=
  u <- random ;; ret (a + (b - a) * u)%Q.

Definition randbelow (n : Z) : M Z :=
  u <- random ;; ret (Qfloor (u * inject_Z n)).

Definition randint (a b : Z) : M Z :=
  i <- randbelow (b - a + 1) ;; ret (a + i).

(** [random.choice(seq)]; [d] is only the default of [nth], never returned
    for a non-empty [seq] (the source only passes non-empty literals). *)
Definition choice {A} (d : A) (seq : list A) : M A :=
  i <- randbelow (Z.of_nat (List.length seq)) ;; ret (nth (Z.to_nat i) seq d).

(** [itertools.accumulate(weights)] *)
Fixpoint accumulate (acc : Q) (ws : list Q) : list Q :=
  match ws with
  | [] => []
  | x :: rest => (acc + x)%Q :: accumulate (acc + x)%Q rest
  end.

(** [bisect.bisect(a, x, 0, hi)]: the number of the first [hi] entries of
    the sorted list [a] that are [<= x]. *)
Fixpoint bisect (a : list Q) (x : Q) (hi : nat) : nat :=
  match hi, a with
  | S hi', y :: rest => if Qle_bool y x then S (bisect rest x hi') else O
  | _, _ => O
  end.

(** [random.choices(population, weights=weights)[0]] *)
Definition choices_weighted {A} (d : A) (population : list A)
    (weights : list Q) : M A :=
  let cum := accumulate 0 weights in
  let total := last cum 0%Q in
  u <- random ;;
  ret (nth (bisect cum (u * total)%Q (List.length population - 1)) population d).

(** [random.choices(population, k=k)]:
    [[population[floor(random() * n)] for i in range(k)]] *)
Definition choices {A} (d : A) (population : list A) (k : nat) : M (list A) :=
  repeatM k (choice d population).

End Random.

(** ** Python's [datetime] and [time] modules *)

Module Datetime.

Definition datetime := Z.
Definition timedelta := Z.

Definition us_per_second : Z := 1000000.
Definition us_per_day : Z := 86400 * us_per_second.

(** [datetime.now()] *)
Definition now : M datetime := fun w => (clock w, w).

(** [time.sleep(secs)]: the clock has advanced by [secs] on return. *)
Definition sleep (secs : Z) : M unit :=
  fun w => (tt, mkWorld (tape w) (cursor w) (clock w + secs * us_per_second)).

(** [timedelta(hours=h)], [timedelta(days=d)] *)
Definition hours (h : Z) : timedelta := h * 3600 * us_per_second.
Definition days (d : Z) : timedelta := d * us_per_day.

(** [timedelta(seconds=x)] for a float [x]: rounded to the nearest
    microsecond, ties to even. *)
Definition seconds (x : Q) : timedelta :=
  Py.round_half_even (x * inject_Z us_per_second).

Definition _DAYS_IN_MONTH : list Z :=
  [-1; 31; 28; 31; 30; 31; 30; 31; 31; 30; 31; 30; 31].

Definition _DAYS_BEFORE_MONTH : list Z :=
  [-1; 0; 31; 59; 90; 120; 151; 181; 212; 243; 273; 304; 334].

Definition _DI400Y : Z := 146097.
Definition _DI100Y : Z := 36524.
Definition _DI4Y : Z := 1461.

(** [_ord2ymd(n)] of Lib/_pydatetime.py, on the zero-based day number
    (the function starts with [n -= 1] on the one-based ordinal). *)
Definition _ord2ymd (n0 : Z) : Z * Z * Z :=
  let n400 := n0 / _DI400Y in
  let n := n0 mod _DI400Y in
  let year := n400 * 400 + 1 in
  let n100 := n / _DI100Y in
  let n := n mod _DI100Y in
  let n4 := n / _DI4Y in
  let n := n mod _DI4Y in
  let n1 := n / 365 in
  let n := n mod 365 in
  let year := year + (n100 * 100 + n4 * 4 + n1) in
  if (n1 =? 4) || (n100 =? 4) then (year - 1, 12, 31)
  else
    let leapyear := (n1 =? 3) && (negb (n4 =? 24) || (n100 =? 3)) in
    let month := Z.shiftr (n + 50) 5 in
    let preceding :=
      nth (Z.to_nat month) _DAYS_BEFORE_MONTH 0
      + (if (2 <? month) && leapyear then 1 else 0) in
    if n <? preceding then
      let month := month - 1 in
      let preceding :=
        preceding - (nth (Z.to_nat month) _DAYS_IN_MONTH 0
                     + (if (month =? 2) && leapyear then 1 else 0)) in
      (year, month, n - preceding + 1)
    else (year, month, n - preceding + 1).

Definition year (t : datetime) : Z := fst (fst (_ord2ymd (t / us_per_day))).
Definition month (t : datetime) : Z := snd (fst (_ord2ymd (t / us_per_day))).
Definition day (t : datetime) : Z := snd (_ord2ymd (t / us_per_day)).
Definition hour (t : datetime) : Z := (t mod us_per_day) / (3600 * us_per_second).
Definition minute (t : datetime) : Z := (t / (60 * us_per_second)) mod 60.
Definition second (t : datetime) : Z := (t / us_per_second) mod 60.
Definition microsecond (t : datetime) : Z := t mod us_per_second.

(** ["%0<w>d" % n] for a non-negative [n]. *)
Definition zpad (w : nat) (n : Z) : string :=
  let s := Py.str n in
  string_of_list_ascii (repeat "0"%char (w - String.length s)) ++ s.

Definition date_part (t : datetime) : string :=
  zpad 4 (year t) ++ "-" ++ zpad 2 (month t) ++ "-" ++ zpad 2 (day t).

Definition time_part (t : datetime) : string :=
  zpad 2 (hour t) ++ ":" ++ zpad 2 (minute t) ++ ":" ++ zpad 2 (second t).

(** [t.strftime("%Y-%m-%d %H:%M:%S")] *)
Definition strftime_seconds (t : datetime) : string :=
  date_part t ++ " " ++ time_part t.

(** [t.strftime("%Y-%m-%d %H:%M:%S.%f")] *)
Definition strftime_micros (t : datetime) : string :=
  strftime_seconds t ++ "." ++ zpad 6 (microsecond t).

(** [t.isoformat()]: the fraction is left out when it is zero. *)
Definition isoformat (t : datetime) : string :=
  date_part t ++ "T" ++ time_part t
  ++ (if microsecond t =? 0 then "" else "." ++ zpad 6 (microsecond t)).

End Datetime.

(** [s[:-3]] *)
Definition drop_last3 (s : string) : string :=
  substring 0 (String.length s - 3) s.

(** [message.format(arg)] for a template with one ["{}"] placeholder (no
    template of the catalog has more, nor any other brace). *)
Fixpoint format (template arg : string) : string :=
  match template with
  | String "{" (String "}" rest) => arg ++ rest
  | String c rest => String c (format rest arg)
  | EmptyString => EmptyString
  end.

(** [sub in s] *)
Definition contains (sub s : string) : bool :=
  match index 0 sub s with Some _ => true | None => false end.

Local Open Scope string_scope.
Local Open Scope Z_scope.

(** ** Catalog *)

Definition SERVICES : list string :=
  [ "auth-service";
    "user-service";
    "payment-service";
    "notification-service";
    "analytics-service";
    "api-gateway" ].

Definition LOG_LEVELS : list string := ["INFO"; "DEBUG"; "WARN"; "ERROR"].

Definition LOG_LEVEL_WEIGHTS : list Q := [6 # 10; 25 # 100; 1 # 10; 5 # 100]%Q.

Definition LOG_MESSAGES : list string :=
  [ "Request processed successfully";
    "Database connection established";
    "Cache hit for key: {}";
    "Processing batch job";
    "HTTP request received: GET /api/v1/{}";
    "Response sent with status code: {}";
    "Authentication successful for user: {}";
    "Rate limit check passed";
    "Circuit breaker closed";
    "Health check completed";
    "Memory usage: {} MB";
    "Connection timeout, retrying...";
    "Invalid request parameter: {}";
    "Service discovery updated";
    "Background task scheduled" ].

Definition COMMIT_TYPES : list string :=
  ["feat"; "fix"; "refactor"; "perf"; "docs"; "test"; "chore"].

Definition COMMIT_MESSAGES : list string :=
  [ "add authentication middleware";
    "fix memory leak in connection pool";
    "update dependencies to latest versions";
    "optimize database query performance";
    "implement rate limiting";
    "add unit tests for API endpoints";
    "refactor error handling logic";
    "improve logging format";
    "fix race condition in cache invalidation";
    "add health check endpoint";
    "update API documentation";
    "implement circuit breaker pattern";
    "optimize memory usage";
    "fix null pointer exception";
    "add integration tests";
    "refactor service discovery logic";
    "improve error messages";
    "add metrics collection";
    "fix timeout handling";
    "implement retry mechanism";
    "update configuration management";
    "add request validation";
    "optimize response time";
    "fix connection leak";
    "add monitoring dashboards";
    "refactor database access layer";
    "implement graceful shutdown";
    "add feature flags support";
    "fix concurrent access issues";
    "improve security headers" ].

Definition DEVELOPERS : list string :=
  [ "alice.chen";
    "bob.smith";
    "carol.jones";
    "david.kim";
    "emma.wilson";
    "frank.garcia";
    "grace.lee";
    "henry.brown" ].

Definition CLUSTER_NAME : string := "production-cluster-01".

(** ** Data model *)

Record ServiceMetrics := mkServiceMetrics {
  service_name : string;
  cpu_usage_percent : Q;
  memory_mb : Z;
  p99_latency_ms : Q;
  request_rate_per_sec : Q;
  error_rate_percent : Q;
  memory_leak_score : Q;
  anomaly_detected : bool
}.

Record MetricsResponse := mkMetricsResponse {
  metrics_timestamp : string;
  metrics_cluster_name : string;
  metrics_services : list ServiceMetrics
}.

Record Commit := mkCommit {
  commit_hash : string;
  author : string;
  date : string;
  message : string;
  service : string;
  files_changed : Z;
  insertions : Z;
  deletions : Z
}.

Record TimeRange := mkTimeRange { range_start : string; range_end : string }.

Record CommitHistoryResponse := mkCommitHistoryResponse {
  history_cluster_name : string;
  total_commits : Z;
  history_services : list string;
  history_time_range : TimeRange;
  commits : string
}.

Record LogsResponse := mkLogsResponse {
  logs_cluster_name : string;
  total_services : Z;
  logs_services : list string;
  log_count : Z;
  logs_time_range : TimeRange;
  logs : string
}.

(** The dicts [{"timestamp": ..., "line": ...}] and
    [{"timestamp": ..., "commit": ...}] collected by the handlers. *)
Record Stamped (A : Type) := mkStamped {
  timestamp : Datetime.datetime;
  payload : A
}.
Arguments mkStamped {A} _ _.
Arguments timestamp {A} _.
Arguments payload {A} _.

(** ** Generators *)

Definition generate_log_line (service : string) (ts : Datetime.datetime)
  : M string :=
  level <- Random.choices_weighted "" LOG_LEVELS LOG_LEVEL_WEIGHTS ;;
  message <- Random.choice "" LOG_MESSAGES ;;
  message <- (if contains "{}" message then
                a <- Random.randint 1000 9999 ;;
                b <- Random.randint 200 500 ;;
                c <- Random.randint 1 100 ;;
                d <- Random.randint 64 512 ;;
                let replacements :=
                  [ "user_" ++ Py.str a; Py.str b;
                    "resource_" ++ Py.str c; Py.str d ] in
                r <- Random.choice "" replacements ;;
                ret (format message r)
              else ret message) ;;
  let timestamp_str := drop_last3 (Datetime.strftime_micros ts) in
  ret (timestamp_str ++ " [" ++ level ++ "] [" ++ service ++ "] " ++ message).

Definition generate_service_metrics (service : string) : M ServiceMetrics :=
  cpu_usage <- Random.uniform 5 95 ;;
  let cpu_usage := Py.round2 cpu_usage in
  memory_mb <- Random.randint 128 2048 ;;
  p99_latency <- Random.uniform 10 500 ;;
  let p99_latency := Py.round2 p99_latency in
  request_rate <- Random.uniform 10 1000 ;;
  let request_rate := Py.round2 request_rate in
  error_rate <- Random.uniform 0 5 ;;
  let error_rate := Py.round2 error_rate in
  coin <- Random.random ;;
  memory_leak_score <- (if Py.ltb coin (2 # 10)
                        then Random.uniform 60 95
                        else Random.uniform 0 40) ;;
  let memory_leak_score := Py.round2 memory_leak_score in
  let anomaly_detected :=
    Py.gtb cpu_usage 85
    || Py.gtb p99_latency 400
    || Py.gtb error_rate 3
    || Py.gtb memory_leak_score 70 in
  ret (mkServiceMetrics service cpu_usage memory_mb p99_latency request_rate
         error_rate memory_leak_score anomaly_detected).

Definition hex_alphabet : list ascii :=
  list_ascii_of_string "0123456789abcdef".

Definition generate_commit (service : string) (ts : Datetime.datetime)
  : M Commit :=
  hash_chars <- Random.choices "0"%char hex_alphabet 7 ;;
  let commit_hash := string_of_list_ascii hash_chars in
  author <- Random.choice "" DEVELOPERS ;;
  commit_type <- Random.choice "" COMMIT_TYPES ;;
  message <- Random.choice "" COMMIT_MESSAGES ;;
  let full_message := commit_type ++ ": " ++ message in
  files_changed <- Random.randint 1 15 ;;
  insertions <- Random.randint 5 200 ;;
  deletions <- Random.randint 1 100 ;;
  ret (mkCommit commit_hash author (Datetime.strftime_seconds ts)
         full_message service files_changed insertions deletions).

Definition newline : string := String (ascii_of_nat 10) EmptyString.

Definition format_commit (commit : Commit) : string :=
  "commit " ++ commit_hash commit ++ newline
  ++ "Author: " ++ author commit ++ newline
  ++ "Date:   " ++ date commit ++ newline
  ++ "Service: " ++ service commit ++ newline
  ++ newline
  ++ "    " ++ message commit ++ newline
  ++ newline
  ++ "    " ++ Py.str (files_changed commit) ++ " files changed, "
  ++ Py.str (insertions commit) ++ " insertions(+), "
  ++ Py.str (deletions commit) ++ " deletions(-)" ++ newline.

(** ** Sorting

    [list.sort(key=...)] is a stable sort, and the stable sort of a list is
    unique, so it is modelled by stable insertion sort.  With
    [reverse=True] CPython reverses the list, sorts it, and reverses it
    again, which keeps equal keys in their original order. *)

Section Sort.
Context {A : Type} (key : A -> Z).

Fixpoint insert_sorted (x : A) (l : list A) : list A :=
  match l with
  | [] => [x]
  | y :: rest =>
      if key x <=? key y then x :: l else y :: insert_sorted x rest
  end.

Fixpoint sort_by (l : list A) : list A :=
  match l with
  | [] => []
  | x :: rest => insert_sorted x (sort_by rest)
  end.

Definition sort_by_reverse (l : list A) : list A :=
  rev (sort_by (rev l)).
End Sort.

(** [enumerate(xs)] *)
Fixpoint enumerate_from {A} (start : Z) (xs : list A) : list (Z * A) :=
  match xs with
  | [] => []
  | x :: rest => (start, x) :: enumerate_from (start + 1) rest
  end.

Definition enumerate {A} (xs : list A) : list (Z * A) := enumerate_from 0 xs.

Definition len {A} (xs : list A) : Z := Z.of_nat (List.length xs).

(** ** Request handlers *)

Record RootBody := mkRootBody { status : Z }.

Definition throw_error : M RootBody :=
  Datetime.sleep 3 ;;;
  ret (mkRootBody 500).

(** [random.choice([{"status": 200}, throw_error()])]: the list literal is
    built, element by element, before [random.choice] is called. *)
Definition read_root : M RootBody :=
  let first := mkRootBody 200 in
  second <- throw_error ;;
  Random.choice first [first; second].

(** [logs_per_service + (1 if idx < remainder else 0)] *)
Definition service_log_count (num_logs idx : Z) : Z :=
  let logs_per_service := num_logs / len SERVICES in
  let remainder := num_logs mod len SERVICES in
  logs_per_service + (if idx <? remainder then 1 else 0).

(** One turn of the inner loop of [get_logs]. *)
Definition generate_log_record (start_time : Datetime.datetime)
    (service : string) : M (Stamped string) :=
  offset <- Random.uniform 0 3600 ;;
  let ts := start_time + Datetime.seconds offset in
  line <- generate_log_line service ts ;;
  ret (mkStamped ts line).

(** The inner loop of [get_logs], for the service at position [idx]. *)
Definition service_logs (num_logs : Z) (start_time : Datetime.datetime)
    (entry : Z * string) : M (list (Stamped string)) :=
  let (idx, service) := entry in
  repeatM (Z.to_nat (service_log_count num_logs idx))
          (generate_log_record start_time service).

(** The list [logs] of [get_logs] after [logs.sort(...)]. *)
Definition sorted_logs (num_logs : Z) (start_time : Datetime.datetime)
  : M (list (Stamped string)) :=
  blocks <- mapM (service_logs num_logs start_time) (enumerate SERVICES) ;;
  ret (sort_by timestamp (List.concat blocks)).

Definition get_logs (num_logs : Z) : M LogsResponse :=
  end_time <- Datetime.now ;;
  let start_time := end_time - Datetime.hours 1 in
  logs <- sorted_logs num_logs start_time ;;
  let log_lines := map payload logs in
  ret (mkLogsResponse CLUSTER_NAME (len SERVICES) SERVICES (len log_lines)
         (mkTimeRange (Datetime.isoformat start_time)
                      (Datetime.isoformat end_time))
         (Py.join newline log_lines)).

(** [commits_per_service + (1 if idx < remainder else 0)] *)
Definition service_commit_count (num_commits idx : Z) : Z :=
  let commits_per_service := num_commits / len SERVICES in
  let remainder := num_commits mod len SERVICES in
  commits_per_service + (if idx <? remainder then 1 else 0).

(** One turn of the inner loop of [get_commit_history]. *)
Definition generate_commit_record (start_time : Datetime.datetime)
    (service : string) : M (Stamped Commit) :=
  offset <- Random.uniform 0 (inject_Z (30 * 24 * 3600)) ;;
  let ts := start_time + Datetime.seconds offset in
  commit <- generate_commit service ts ;;
  ret (mkStamped ts commit).

(** The inner loop of [get_commit_history], for the service at [idx]. *)
Definition service_commits (num_commits : Z) (start_time : Datetime.datetime)
    (entry : Z * string) : M (list (Stamped Commit)) :=
  let (idx, service) := entry in
  repeatM (Z.to_nat (service_commit_count num_commits idx))
          (generate_commit_record start_time service).

(** The list [commits] of [get_commit_history] after
    [commits.sort(..., reverse=True)]. *)
Definition sorted_commits (num_commits : Z) (start_time : Datetime.datetime)
  : M (list (Stamped Commit)) :=
  blocks <- mapM (service_commits num_commits start_time)
                 (enumerate SERVICES) ;;
  ret (sort_by_reverse timestamp (List.concat blocks)).

Definition get_commit_history (num_commits : Z) : M CommitHistoryResponse :=
  end_time <- Datetime.now ;;
  let start_time := end_time - Datetime.days 30 in
  commits <- sorted_commits num_commits start_time ;;
  let commit_lines := map (fun c => format_commit (payload c)) commits in
  ret (mkCommitHistoryResponse CLUSTER_NAME (len commits) SERVICES
         (mkTimeRange (Datetime.isoformat start_time)
                      (Datetime.isoformat end_time))
         (Py.join newline commit_lines)).

Definition get_metrics : M MetricsResponse :=
  service_metrics <- mapM generate_service_metrics SERVICES ;;
  ts <- Datetime.now ;;
  ret (mkMetricsResponse (Datetime.isoformat ts) CLUSTER_NAME service_metrics).

(** ** Query validation

    [Query(default=d, ge=lo, le=hi)]: the framework checks the bounds
    before it calls the handler, and answers 422 Unprocessable Entity
    itself when they fail.  A missing parameter takes the default. *)

Record Query := mkQuery { q_default : Z; q_ge : Z; q_le : Z }.

Inductive HttpResult (A : Type) : Type :=
| Ok (body : A)
| ClientError (status_code : Z).
Arguments Ok {A} _.
Arguments ClientError {A} _.

Definition validate (q : Query) (param : option Z) : option Z :=
  match param with
  | None => Some (q_default q)
  | Some v => if (q_ge q <=? v) && (v <=? q_le q) then Some v else None
  end.

Definition endpoint {A} (q : Query) (handler : Z -> M A) (param : option Z)
  : M (HttpResult A) :=
  match validate q param with
  | Some v => body <- handler v ;; ret (Ok body)
  | None => ret (ClientError 422)
  end.

Definition num_logs_query : Query := mkQuery 100 1 10000.
Definition num_commits_query : Query := mkQuery 50 1 1000.

(** [GET /logs?num_logs=...] *)
Definition logs_endpoint : option Z -> M (HttpResult LogsResponse) :=
  endpoint num_logs_query get_logs.

(** [GET /commit_history?num_commits=...] *)
Definition commit_history_endpoint
  : option Z -> M (HttpResult CommitHistoryResponse) :=
  endpoint num_commits_query get_commit_history.

(** ** Vocabulary of the properties *)

(** The [i]-th value that [random()] returns from world [w] on. *)
Definition draw (w : World) (i : nat) : Q :=
  Qmake (tape w (cursor w + i) mod Zpos Random.two53) Random.two53.

(** The world after [n] draws. *)
Definition advance (n : nat) (w : World) : World :=
  mkWorld (tape w) (cursor w + n) (clock w).

(** The threshold rule of the anomaly flag, on the fields of a record. *)
Definition threshold_rule (m : ServiceMetrics) : Prop :=
  (85 < cpu_usage_percent m \/ 400 < p99_latency_ms m
   \/ 3 < error_rate_percent m \/ 70 < memory_leak_score m)%Q.



(** Records in non-decreasing, and in non-increasing, order of timestamp:
    every record is related to every later one. *)
Definition ascending {A} (l : list (Stamped A)) : Prop :=
  StronglySorted (fun a b => timestamp a <= timestamp b) l.

Definition descending {A} (l : list (Stamped A)) : Prop :=
  StronglySorted (fun a b => timestamp b <= timestamp a) l.

Definition sum_Z (l : list Z) : Z := fold_right Z.add 0 l.

(** Positions of the six catalog services. *)
Definition positions : list Z := [0; 1; 2; 3; 4; 5].

(** An even split of [n] records by [count] over the six positions: each
    gets [n / 6] or one more, the extra one goes exactly to the positions
    below [n mod 6], and the counts add up to [n]. *)
Definition even_split (count : Z -> Z) (n : Z) : Prop :=
  Forall (fun idx =>
            (count idx = n / 6 \/ count idx = n / 6 + 1)
            /\ (count idx = n / 6 + 1 <-> idx < n mod 6)
            /\ (count idx = n / 6 <-> n mod 6 <= idx))
         positions
  /\ sum_Z (map count positions) = n.

(** A log line written for [service]. *)
Definition log_line_of (service line : string) : Prop :=
  exists stamp level message,
    line = stamp ++ " [" ++ level ++ "] [" ++ service ++ "] " ++ message.

(** A log record whose line starts with its own timestamp, printed to the
    millisecond. *)
Definition line_stamped (r : Stamped string) : Prop :=
  exists rest,
    payload r = drop_last3 (Datetime.strftime_micros (timestamp r)) ++ rest.

(** A commit record whose [date] field is its own timestamp, printed to the
    second. *)
Definition commit_dated (r : Stamped Commit) : Prop :=
  date (payload r) = Datetime.strftime_seconds (timestamp r).

Definition within {A} (start_time end_time : Datetime.datetime)
    (r : Stamped A) : Prop :=
  start_time <= timestamp r <= end_time.

(** A world to run the handlers on: a fixed tape, the clock at
    2024-01-15 10:30:15.123456. *)
Definition sample_world : World :=
  mkWorld (fun i => (Z.of_nat i * 6364136223846793005 + 1442695040888963407)
                    * 2862933555777941757)
          0 63840911415123456.

(** The element [random.choice(seq)] returns when [random()] returns [u]. *)
Definition pick {A} (d : A) (seq : list A) (u : Q) : A :=
  nth (Z.to_nat (Qfloor (u * inject_Z (len seq)))) seq d.

(** The character class [[0-9a-f]]. *)
Definition is_lower_hex (c : ascii) : bool :=
  let n := nat_of_ascii c in
  ((48 <=? n)%nat && (n <=? 57)%nat) || ((97 <=? n)%nat && (n <=? 102)%nat).

(** The pattern [^[0-9a-f]{7}$]. *)
Definition matches_hash_pattern (s : string) : bool :=
  (String.length s =? 7)%nat && forallb is_lower_hex (list_ascii_of_string s).

Definition newline_char : ascii := ascii_of_nat 10.

Fixpoint no_newline (s : string) : bool :=
  match s with
  | EmptyString => true
  | String c rest => negb (Ascii.eqb c newline_char) && no_newline rest
  end.

(** [s.split("\n")] *)
Fixpoint split_lines (s : string) : list string :=
  match s with
  | EmptyString => [EmptyString]
  | String c rest =>
      if Ascii.eqb c newline_char then EmptyString :: split_lines rest
      else match split_lines rest with
           | [] => [String c EmptyString]
           | l :: ls => String c l :: ls
           end
  end.

(** The lines of the git-log-style block of a commit. *)
Definition block_lines (c : Commit) : list string :=
  [ "commit " ++ commit_hash c;
    "Author: " ++ author c;
    "Date:   " ++ date c;
    "Service: " ++ service c;
    "";
    "    " ++ message c;
    "";
    "    " ++ Py.str (files_changed c) ++ " files changed, "
      ++ Py.str (insertions c) ++ " insertions(+), "
      ++ Py.str (deletions c) ++ " deletions(-)" ].

(** The world in which every draw is zero. *)
Definition zero_world : World := mkWorld (fun _ => 0) 0 0.

(** ** Fixed-width decimal fields and the ISO 8601 shape *)

(** The decimal digit [k], put in front of [d]. *)
Definition digit_of (k : Z) (d : Decimal.uint) : Decimal.uint :=
  match k with
  | 0 => Decimal.D0 d
  | 1 => Decimal.D1 d
  | 2 => Decimal.D2 d
  | 3 => Decimal.D3 d
  | 4 => Decimal.D4 d
  | 5 => Decimal.D5 d
  | 6 => Decimal.D6 d
  | 7 => Decimal.D7 d
  | 8 => Decimal.D8 d
  | _ => Decimal.D9 d
  end.

(** The [w] low decimal digits of [n], least significant first. *)
Fixpoint little_digits (w : nat) (n : Z) : Decimal.uint :=
  match w with
  | O => Decimal.Nil
  | S w' => digit_of (n mod 10) (little_digits w' (n / 10))
  end.

(** [n] written with exactly [w] decimal digits. *)
Definition fixed_width (w : nat) (n : Z) : string :=
  NilEmpty.string_of_uint (Decimal.rev (little_digits w n)).

(** The character class [[0-9]]. *)
Definition is_digit (c : ascii) : bool :=
  let n := nat_of_ascii c in (48 <=? n)%nat && (n <=? 57)%nat.

Fixpoint all_digits (s : string) : bool :=
  match s with
  | EmptyString => true
  | String c rest => is_digit c && all_digits rest
  end.

(** [k] zeros. *)
Definition zeros (k : nat) : string := string_of_list_ascii (repeat "0"%char k).

(** The last lines of [_ord2ymd]: month and day of the zero-based day [n]
    of a year. *)
Definition month_day (n : Z) (leapyear : bool) : Z * Z :=
  let month := Z.shiftr (n + 50) 5 in
  let preceding :=
    nth (Z.to_nat month) Datetime._DAYS_BEFORE_MONTH 0
    + (if (2 <? month) && leapyear then 1 else 0) in
  if n <? preceding then
    let month := month - 1 in
    let preceding :=
      preceding - (nth (Z.to_nat month) Datetime._DAYS_IN_MONTH 0
                   + (if (month =? 2) && leapyear then 1 else 0)) in
    (month, n - preceding + 1)
  else (month, n - preceding + 1).

Definition month_day_ok (n : Z) (leapyear : bool) : bool :=
  let (m, d) := month_day n leapyear in
  (1 <=? m) && (m <=? 12) && (1 <=? d) && (d <=? 31).

(** Python's [datetime] holds the years 1 to 9999. *)
Definition valid_datetime (t : Datetime.datetime) : Prop :=
  0 <= t < 3652059 * Datetime.us_per_day.

Inductive Pat : Type :=
| PDigit
| PChar (c : ascii).

Definition pat_matches (p : Pat) (c : ascii) : bool :=
  match p with
  | PDigit => is_digit c
  | PChar c' => Ascii.eqb c c'
  end.

(** What is left of [s] after a prefix that matches [p], if there is one. *)
Fixpoint match_prefix (p : list Pat) (s : string) : option string :=
  match p with
  | [] => Some s
  | x :: p' =>
      match s with
      | EmptyString => None
      | String c rest =>
          if pat_matches x c then match_prefix p' rest else None
      end
  end.

Definition digits (k : nat) : list Pat := repeat PDigit k.

(** [dddd-dd-ddTdd:dd:dd] *)
Definition iso_seconds_pattern : list Pat :=
  (digits 4 ++ PChar "-" :: digits 2 ++ PChar "-" :: digits 2
   ++ PChar "T" :: digits 2 ++ PChar ":" :: digits 2 ++ PChar ":" :: digits 2)%list.

(** [.dddddd] *)
Definition iso_fraction_pattern : list Pat := PChar "." :: digits 6.

(** The ISO 8601 extended format of a local date and time, with or without
    a six-digit fraction of the second. *)
Definition iso8601_shape (s : string) : bool :=
  match match_prefix iso_seconds_pattern s with
  | Some EmptyString => true
  | Some rest =>
      match match_prefix iso_fraction_pattern rest with
      | Some EmptyString => true
      | _ => false
      end
  | None => false
  end.

(** ** Vocabulary of the further properties *)

(** The ranges of the remaining numeric fields of a metrics record. *)
Definition in_metric_ranges (m : ServiceMetrics) : Prop :=
  128 <= memory_mb m <= 2048
  /\ (10 <= p99_latency_ms m <= 500)%Q
  /\ (10 <= request_rate_per_sec m <= 1000)%Q
  /\ (0 <= error_rate_percent m <= 5)%Q.

(** The fields of a commit that are drawn from the catalog or from an
    integer range. *)
Definition commit_fields_in_range (c : Commit) : Prop :=
  In (author c) DEVELOPERS
  /\ (exists commit_type text,
         In commit_type COMMIT_TYPES /\ In text COMMIT_MESSAGES
         /\ message c = commit_type ++ ": " ++ text)
  /\ 1 <= files_changed c <= 15
  /\ 5 <= insertions c <= 200
  /\ 1 <= deletions c <= 100.

(** The level that [random.choices(LOG_LEVELS, weights=LOG_LEVEL_WEIGHTS)]
    returns when [random()] returns [u]. *)
Definition level_of (u : Q) : string :=
  if Py.ltb u (6 # 10) then "INFO"
  else if Py.ltb u (85 # 100) then "DEBUG"
  else if Py.ltb u (95 # 100) then "WARN"
  else "ERROR".

(** The list [replacements] of [generate_log_line], built from the third to
    sixth draw. *)
Definition log_replacements (w : World) : list string :=
  [ "user_" ++ Py.str (1000 + Qfloor (draw w 2 * inject_Z (9999 - 1000 + 1)));
    Py.str (200 + Qfloor (draw w 3 * inject_Z (500 - 200 + 1)));
    "resource_" ++ Py.str (1 + Qfloor (draw w 4 * inject_Z (100 - 1 + 1)));
    Py.str (64 + Qfloor (draw w 5 * inject_Z (512 - 64 + 1))) ].

(** The message of the log line generated from world [w]. *)
Definition log_message (w : World) : string :=
  let template := pick "" LOG_MESSAGES (draw w 1) in
  if contains "{}" template
  then format template (pick "" (log_replacements w) (draw w 6))
  else template.

(** The number of draws that log line consumes. *)
Definition log_draws (w : World) : nat :=
  if contains "{}" (pick "" LOG_MESSAGES (draw w 1)) then 7%nat else 2%nat.

(** [c not in s] *)
Fixpoint lacks (c : ascii) (s : string) : bool :=
  match s with
  | EmptyString => true
  | String x rest => negb (Ascii.eqb x c) && lacks c rest
  end.

(** The characters a log line must not contain for its fields to be read
    back: the line separator and the two braces of a placeholder. *)
Definition reserved_chars : list ascii := [newline_char; "{"; "}"]%char.

(** The number of commits of [records] that belong to service [svc]. *)
Definition count_service (svc : string) (records : list (Stamped Commit))
  : nat :=
  List.length
    (filter (fun r => String.eqb (service (payload r)) svc) records).

(** A commit whose text fields hold no newline. *)
Definition one_line_fields (c : Commit) : bool :=
  no_newline (commit_hash c) && no_newline (author c) && no_newline (date c)
  && no_newline (service c) && no_newline (message c).

(** A record of a [/logs] response, read field by field: the timestamp to
    the millisecond, a level of the catalog, a service of the catalog, and
    a message without newline or brace. *)
Definition well_formed_log_record (r : Stamped string) : Prop :=
  exists level svc text,
    In level LOG_LEVELS /\ In svc SERVICES
    /\ Forall (fun c => lacks c text = true) reserved_chars
    /\ payload r
       = Datetime.strftime_seconds (timestamp r) ++ "."
         ++ Datetime.zpad 3 (Datetime.microsecond (timestamp r) / 1000)
         ++ " [" ++ level ++ "] [" ++ svc ++ "] " ++ text.

(** * Properties *)

(** ** The monad *)

Lemma bind_run {A B} (m : M A) (k : A -> M B) (w : World) :
  bind m k w = k (fst (m w)) (snd (m w)).
Proof. unfold bind. destruct (m w); reflexivity. Qed.

Lemma advance_0 (w : World) : advance 0 w = w.
Proof. destruct w; unfold advance; simpl. now rewrite Nat.add_0_r. Qed.

Lemma advance_advance (n m : nat) (w : World) :
  advance n (advance m w) = advance (m + n) w.
Proof. unfold advance; simpl. now rewrite Nat.add_assoc. Qed.

Lemma draw_advance (n i : nat) (w : World) :
  draw (advance n w) i = draw w (n + i).
Proof. unfold draw, advance; simpl. now rewrite Nat.add_assoc. Qed.

Lemma random_run (w : World) : Random.random w = (draw w 0, advance 1 w).
Proof.
  unfold Random.random, draw, advance.
  now rewrite Nat.add_0_r, Nat.add_1_r.
Qed.

Lemma uniform_run (a b : Q) (w : World) :
  Random.uniform a b w = ((a + (b - a) * draw w 0)%Q, advance 1 w).
Proof. unfold Random.uniform. now rewrite bind_run, random_run. Qed.

Lemma randbelow_run (n : Z) (w : World) :
  Random.randbelow n w = (Qfloor (draw w 0 * inject_Z n), advance 1 w).
Proof. unfold Random.randbelow. now rewrite bind_run, random_run. Qed.

Lemma randint_run (a b : Z) (w : World) :
  Random.randint a b w
  = (a + Qfloor (draw w 0 * inject_Z (b - a + 1)), advance 1 w).
Proof. unfold Random.randint. now rewrite bind_run, randbelow_run. Qed.

Lemma choice_run {A} (d : A) (seq : list A) (w : World) :
  Random.choice d seq w
  = (nth (Z.to_nat (Qfloor (draw w 0 * inject_Z (len seq)))) seq d,
     advance 1 w).
Proof. unfold Random.choice. now rewrite bind_run, randbelow_run. Qed.

Lemma mapM_length {A B} (f : A -> M B) (xs : list A) (w : World) :
  List.length (fst (mapM f xs w)) = List.length xs.
Proof.
  revert w; induction xs as [|x rest IH]; intros w; simpl; [reflexivity|].
  rewrite !bind_run; simpl. now rewrite IH.
Qed.

Lemma mapM_Forall2 {A B} (f : A -> M B) (R : A -> B -> Prop) :
  (forall x w, R x (fst (f x w))) ->
  forall xs w, Forall2 R xs (fst (mapM f xs w)).
Proof.
  intros Hf xs; induction xs as [|x rest IH]; intros w; simpl.
  - constructor.
  - rewrite !bind_run; simpl. constructor; [apply Hf | apply IH].
Qed.

Lemma repeatM_length {A} (n : nat) (body : M A) (w : World) :
  List.length (fst (repeatM n body w)) = n.
Proof.
  revert w; induction n as [|n IH]; intros w; simpl; [reflexivity|].
  rewrite !bind_run; simpl. now rewrite IH.
Qed.

Lemma repeatM_Forall {A} (body : M A) (P : A -> Prop) :
  (forall w, P (fst (body w))) ->
  forall n w, Forall P (fst (repeatM n body w)).
Proof.
  intros Hb n; induction n as [|n IH]; intros w; simpl.
  - constructor.
  - rewrite !bind_run; simpl. constructor; [apply Hb | apply IH].
Qed.

(** ** Floats *)

Lemma gtb_spec (x y : Q) : Py.gtb x y = true <-> (y < x)%Q.
Proof.
  unfold Py.gtb. rewrite negb_true_iff, <- not_true_iff_false, Qle_bool_iff.
  split; [apply Qnot_le_lt | apply Qlt_not_le].
Qed.

Lemma ltb_spec (x y : Q) : Py.ltb x y = true <-> (x < y)%Q.
Proof. unfold Py.ltb. apply (gtb_spec y x). Qed.

Lemma ltb_false (x y : Q) : Py.ltb x y = false <-> (y <= x)%Q.
Proof.
  unfold Py.ltb. rewrite negb_false_iff. apply Qle_bool_iff.
Qed.

Lemma draw_unit (w : World) (i : nat) : (0 <= draw w i < 1)%Q.
Proof.
  unfold draw, Qle, Qlt; simpl.
  pose proof (Z.mod_pos_bound (tape w (cursor w + i)) (Zpos Random.two53)).
  lia.
Qed.

(** Rounding to the nearest integer stays between integer bounds. *)
Lemma round_half_even_bounds (a b : Z) (q : Q) :
  (inject_Z a <= q)%Q -> (q <= inject_Z b)%Q ->
  a <= Py.round_half_even q <= b.
Proof.
  intros Ha Hb.
  assert (Hfa : a <= Qfloor q).
  { rewrite <- (Qfloor_Z a). now apply Qfloor_resp_le. }
  assert (Hfb : Qfloor q <= b).
  { rewrite <- (Qfloor_Z b). now apply Qfloor_resp_le. }
  assert (Hstep : (0 < q - inject_Z (Qfloor q))%Q -> Qfloor q + 1 <= b).
  { intros Hpos.
    assert (Hlt : (inject_Z (Qfloor q) < inject_Z b)%Q).
    { apply Qlt_le_trans with q; [|exact Hb].
      apply Qlt_minus_iff. exact Hpos. }
    rewrite <- Zlt_Qlt in Hlt. lia. }
  unfold Py.round_half_even.
  destruct (Qcompare (q - inject_Z (Qfloor q)) (1 # 2)) eqn:E.
  - apply Qeq_alt in E.
    destruct (Z.even (Qfloor q)); [lia|].
    split; [lia|]. apply Hstep. rewrite E. reflexivity.
  - lia.
  - apply Qgt_alt in E. split; [lia|]. apply Hstep.
    apply Qlt_trans with (1 # 2); [reflexivity | exact E].
Qed.

Lemma round2_bounds (a b : Z) (q : Q) :
  (inject_Z a <= q)%Q -> (q <= inject_Z b)%Q ->
  (inject_Z a <= Py.round2 q <= inject_Z b)%Q.
Proof.
  intros Ha Hb.
  destruct (round_half_even_bounds (a * 100) (b * 100) (q * inject_Z 100))
    as [H1 H2].
  - rewrite inject_Z_mult. apply Qmult_le_compat_r; [exact Ha | discriminate].
  - rewrite inject_Z_mult. apply Qmult_le_compat_r; [exact Hb | discriminate].
  - unfold Py.round2, Qle; simpl. lia.
Qed.

(** [uniform(a, b)] with integer bounds [a <= b] lies in [[a, b]]. *)
Lemma uniform_bounds (a b : Z) (w : World) :
  a <= b ->
  (inject_Z a <= fst (Random.uniform (inject_Z a) (inject_Z b) w)
   <= inject_Z b)%Q.
Proof.
  intros Hab. rewrite uniform_run; simpl.
  destruct (draw_unit w 0) as [H0 H1].
  assert (Hd : (0 <= inject_Z b - inject_Z a)%Q).
  { unfold Qle; simpl. lia. }
  split.
  - rewrite <- (Qplus_0_r (inject_Z a)) at 1.
    apply Qplus_le_r. now apply Qmult_le_0_compat.
  - apply Qle_trans
      with (inject_Z a + (inject_Z b - inject_Z a) * 1)%Q.
    + apply Qplus_le_r.
      rewrite !(Qmult_comm (inject_Z b - inject_Z a)).
      apply Qmult_le_compat_r; [now apply Qlt_le_weak | exact Hd].
    + apply Qle_lteq; right; ring.
Qed.

(** ** Metrics generator *)

(** The record [generate_service_metrics] builds, in terms of the seven
    draws it consumes. *)
Lemma generate_service_metrics_run (service : string) (w : World) :
  generate_service_metrics service w
  = (let cpu_usage := Py.round2 (5 + (95 - 5) * draw w 0) in
     let p99_latency := Py.round2 (10 + (500 - 10) * draw w 2) in
     let error_rate := Py.round2 (0 + (5 - 0) * draw w 4) in
     let memory_leak_score :=
       Py.round2 (if Py.ltb (draw w 5) (2 # 10)
                  then 60 + (95 - 60) * draw w 6
                  else 0 + (40 - 0) * draw w 6) in
     mkServiceMetrics service cpu_usage
       (128 + Qfloor (draw w 1 * inject_Z (2048 - 128 + 1)))
       p99_latency
       (Py.round2 (10 + (1000 - 10) * draw w 3))
       error_rate memory_leak_score
       (Py.gtb cpu_usage 85 || Py.gtb p99_latency 400
        || Py.gtb error_rate 3 || Py.gtb memory_leak_score 70),
     advance 7 w)%Q.
Proof.
  unfold generate_service_metrics.
  rewrite bind_run, uniform_run; cbn [fst snd].
  rewrite bind_run, randint_run; cbn [fst snd].
  rewrite bind_run, uniform_run; cbn [fst snd].
  rewrite bind_run, uniform_run; cbn [fst snd].
  rewrite bind_run, uniform_run; cbn [fst snd].
  rewrite bind_run, random_run; cbn [fst snd].
  rewrite bind_run.
  rewrite !advance_advance, !draw_advance; cbn [Nat.add].
  destruct (Py.ltb (draw w 5) (2 # 10));
    rewrite uniform_run; cbn [fst snd];
    rewrite !advance_advance, !draw_advance; cbn [Nat.add];
    reflexivity.
Qed.

Lemma mapM_Forall {A B} (f : A -> M B) (P : B -> Prop) :
  (forall x w, P (fst (f x w))) ->
  forall xs w, Forall P (fst (mapM f xs w)).
Proof.
  intros Hf xs; induction xs as [|x rest IH]; intros w; simpl.
  - constructor.
  - rewrite !bind_run; simpl. constructor; [apply Hf | apply IH].
Qed.

Lemma mapM_clock {A B} (f : A -> M B) :
  (forall x w, clock (snd (f x w)) = clock w) ->
  forall xs w, clock (snd (mapM f xs w)) = clock w.
Proof.
  intros Hf xs; induction xs as [|x rest IH]; intros w; simpl.
  - reflexivity.
  - rewrite !bind_run; simpl. rewrite IH. apply Hf.
Qed.

Lemma get_metrics_run (w : World) :
  fst (get_metrics w)
  = mkMetricsResponse (Datetime.isoformat (clock w)) CLUSTER_NAME
      (fst (mapM generate_service_metrics SERVICES w)).
Proof.
  unfold get_metrics. rewrite !bind_run.
  unfold Datetime.now, ret; cbn [fst snd].
  rewrite mapM_clock; [reflexivity|].
  intros x w1. now rewrite generate_service_metrics_run.
Qed.

Lemma threshold_rule_generated (service : string) (w : World) :
  let m := fst (generate_service_metrics service w) in
  anomaly_detected m = true <-> threshold_rule m.
Proof.
  rewrite generate_service_metrics_run; cbn zeta.
  unfold threshold_rule; cbn [fst anomaly_detected cpu_usage_percent
    p99_latency_ms error_rate_percent memory_leak_score].
  rewrite !orb_true_iff, !gtb_spec. tauto.
Qed.

(** C1.  The [anomaly_detected] flag of every record the metrics generator
    produces, and so of every entry of a [GET /metrics] response, is true
    exactly when [cpu_usage_percent > 85] or [p99_latency_ms > 400] or
    [error_rate_percent > 3] or [memory_leak_score > 70], on the numeric
    fields of that same record. *)
Theorem anomaly_detected_iff_thresholds :
  (forall (service : string) (w : World),
      let m := fst (generate_service_metrics service w) in
      anomaly_detected m = true <-> threshold_rule m)
  /\ (forall w : World,
         Forall (fun m => anomaly_detected m = true <-> threshold_rule m)
                (metrics_services (fst (get_metrics w)))).
Proof.
  split.
  - exact threshold_rule_generated.
  - intros w. rewrite get_metrics_run; cbn [metrics_services].
    apply mapM_Forall. exact threshold_rule_generated.
Qed.





(** ** Sorting *)

Section SortFacts.
Context {A : Type} (key : A -> Z).

Let le_key (a b : A) : Prop := key a <= key b.

Lemma insert_sorted_perm (x : A) (l : list A) :
  Permutation (insert_sorted key x l) (x :: l).
Proof.
  induction l as [|y rest IH]; simpl.
  - apply Permutation_refl.
  - destruct (key x <=? key y).
    + apply Permutation_refl.
    + apply perm_trans with (y :: x :: rest).
      * now apply perm_skip.
      * apply perm_swap.
Qed.

Lemma sort_by_perm (l : list A) : Permutation (sort_by key l) l.
Proof.
  induction l as [|x rest IH]; simpl.
  - apply perm_nil.
  - apply perm_trans with (x :: sort_by key rest).
    + apply insert_sorted_perm.
    + now apply perm_skip.
Qed.

Lemma insert_sorted_sorted (x : A) (l : list A) :
  StronglySorted le_key l -> StronglySorted le_key (insert_sorted key x l).
Proof.
  induction l as [|y rest IH]; simpl; intros Hs.
  - constructor; constructor.
  - inversion Hs as [|y' rest' Hrest Hall]; subst.
    destruct (Z.leb_spec (key x) (key y)) as [Hle|Hgt].
    + constructor; [exact Hs|].
      constructor; [exact Hle|].
      eapply Forall_impl; [|exact Hall].
      intros z Hz. unfold le_key in *. lia.
    + constructor; [now apply IH|].
      apply (Permutation_Forall
               (Permutation_sym (insert_sorted_perm x rest))).
      constructor; [unfold le_key; lia | exact Hall].
Qed.

Lemma sort_by_sorted (l : list A) : StronglySorted le_key (sort_by key l).
Proof.
  induction l as [|x rest IH]; simpl.
  - constructor.
  - now apply insert_sorted_sorted.
Qed.

Lemma sort_by_length (l : list A) :
  List.length (sort_by key l) = List.length l.
Proof. apply Permutation_length, sort_by_perm. Qed.

Lemma sort_by_reverse_perm (l : list A) :
  Permutation (sort_by_reverse key l) l.
Proof.
  unfold sort_by_reverse.
  apply perm_trans with (sort_by key (rev l)).
  - apply Permutation_sym, Permutation_rev.
  - apply perm_trans with (rev l).
    + apply sort_by_perm.
    + apply Permutation_sym, Permutation_rev.
Qed.

Lemma sort_by_reverse_length (l : list A) :
  List.length (sort_by_reverse key l) = List.length l.
Proof. apply Permutation_length, sort_by_reverse_perm. Qed.
End SortFacts.

Lemma StronglySorted_snoc {A} (R : A -> A -> Prop) (l : list A) (x : A) :
  StronglySorted R l -> Forall (fun y => R y x) l ->
  StronglySorted R (l ++ [x]).
Proof.
  induction l as [|y rest IH]; simpl; intros Hs Hall.
  - constructor; constructor.
  - inversion Hs; subst. inversion Hall; subst.
    constructor; [now apply IH|].
    apply Forall_app; split; [assumption|]. now constructor.
Qed.

Lemma StronglySorted_rev_flip {A} (R : A -> A -> Prop) (l : list A) :
  StronglySorted R l -> StronglySorted (fun a b => R b a) (rev l).
Proof.
  induction 1 as [|x rest Hs IH Hall]; simpl.
  - constructor.
  - apply StronglySorted_snoc; [exact IH|].
    apply Forall_rev. exact Hall.
Qed.

Lemma sort_by_reverse_sorted {A} (key : A -> Z) (l : list A) :
  StronglySorted (fun a b => key b <= key a) (sort_by_reverse key l).
Proof.
  unfold sort_by_reverse.
  apply (StronglySorted_rev_flip (fun a b => key a <= key b)).
  apply sort_by_sorted.
Qed.

(** The stable order of [reverse=True]: equal keys keep their order. *)
Example sort_by_reverse_stable :
  sort_by_reverse fst [(1, "a"); (2, "b"); (1, "c"); (2, "d")]
  = [(2, "b"); (2, "d"); (1, "a"); (1, "c")].
Proof. reflexivity. Qed.

Example sort_by_stable :
  sort_by fst [(2, "b"); (1, "a"); (2, "d"); (1, "c")]
  = [(1, "a"); (1, "c"); (2, "b"); (2, "d")].
Proof. reflexivity. Qed.

(** ** Allocation of records to services *)

Lemma mapM_lengths {A B} (f : A -> M (list B)) (g : A -> nat) :
  (forall x w, List.length (fst (f x w)) = g x) ->
  forall xs w, map (@List.length B) (fst (mapM f xs w)) = map g xs.
Proof.
  intros Hf xs; induction xs as [|x rest IH]; intros w; simpl.
  - reflexivity.
  - rewrite !bind_run; simpl. now rewrite IH, Hf.
Qed.

Lemma length_concat_sum {A} (blocks : list (list A)) :
  Z.of_nat (List.length (List.concat blocks))
  = sum_Z (map (fun b => Z.of_nat (List.length b)) blocks).
Proof.
  induction blocks as [|b rest IH]; simpl; [reflexivity|].
  rewrite length_app, Nat2Z.inj_add, IH. reflexivity.
Qed.

Lemma service_log_count_eq (n idx : Z) :
  service_log_count n idx = n / 6 + (if idx <? n mod 6 then 1 else 0).
Proof. reflexivity. Qed.

Lemma service_commit_count_eq (n idx : Z) :
  service_commit_count n idx = n / 6 + (if idx <? n mod 6 then 1 else 0).
Proof. reflexivity. Qed.

Lemma split_sum (n : Z) :
  0 <= n ->
  sum_Z (map (fun idx => n / 6 + (if idx <? n mod 6 then 1 else 0)) positions)
  = n.
Proof.
  intros Hn. unfold positions, sum_Z; cbn [map fold_right].
  pose proof (Z.div_mod n 6 ltac:(lia)) as Hdm.
  pose proof (Z.mod_pos_bound n 6 ltac:(lia)) as Hr.
  destruct (Z.ltb_spec 0 (n mod 6)), (Z.ltb_spec 1 (n mod 6)),
    (Z.ltb_spec 2 (n mod 6)), (Z.ltb_spec 3 (n mod 6)),
    (Z.ltb_spec 4 (n mod 6)), (Z.ltb_spec 5 (n mod 6)); lia.
Qed.

Lemma split_nonneg (n idx : Z) :
  0 <= n -> 0 <= n / 6 + (if idx <? n mod 6 then 1 else 0).
Proof.
  intros Hn. pose proof (Z.div_pos n 6 Hn ltac:(lia)).
  destruct (idx <? n mod 6); lia.
Qed.

Lemma service_logs_length n start entry w :
  List.length (fst (service_logs n start entry w))
  = Z.to_nat (service_log_count n (fst entry)).
Proof. destruct entry as [idx s]. apply repeatM_length. Qed.

Lemma service_commits_length n start entry w :
  List.length (fst (service_commits n start entry w))
  = Z.to_nat (service_commit_count n (fst entry)).
Proof. destruct entry as [idx s]. apply repeatM_length. Qed.

Lemma enumerate_positions : map fst (enumerate SERVICES) = positions.
Proof. reflexivity. Qed.

Lemma log_blocks_lengths n start w :
  map (@List.length _)
      (fst (mapM (service_logs n start) (enumerate SERVICES) w))
  = map (fun idx => Z.to_nat (service_log_count n idx)) positions.
Proof.
  rewrite (mapM_lengths _ (fun e => Z.to_nat (service_log_count n (fst e)))).
  - now rewrite <- enumerate_positions, map_map.
  - intros; apply service_logs_length.
Qed.

Lemma commit_blocks_lengths n start w :
  map (@List.length _)
      (fst (mapM (service_commits n start) (enumerate SERVICES) w))
  = map (fun idx => Z.to_nat (service_commit_count n idx)) positions.
Proof.
  rewrite (mapM_lengths _ (fun e => Z.to_nat (service_commit_count n (fst e)))).
  - now rewrite <- enumerate_positions, map_map.
  - intros; apply service_commits_length.
Qed.

Lemma blocks_total {A} (blocks : list (list A)) (n : Z) :
  0 <= n ->
  map (@List.length A) blocks
  = map (fun idx => Z.to_nat (n / 6 + (if idx <? n mod 6 then 1 else 0)))
        positions ->
  len (List.concat blocks) = n.
Proof.
  intros Hn Hlen. unfold len. rewrite length_concat_sum.
  rewrite <- (map_map (@List.length A) Z.of_nat), Hlen, map_map.
  etransitivity; [|apply (split_sum n Hn)].
  f_equal. apply map_ext. intros idx.
  apply Z2Nat.id. now apply split_nonneg.
Qed.

Lemma even_split_holds (n : Z) :
  0 <= n ->
  even_split (fun idx => n / 6 + (if idx <? n mod 6 then 1 else 0)) n.
Proof.
  intros Hn. split; [|now apply split_sum].
  apply Forall_forall. intros idx _.
  destruct (Z.ltb_spec idx (n mod 6)); lia.
Qed.

Lemma generate_log_line_shape (service : string) ts w :
  log_line_of service (fst (generate_log_line service ts w)).
Proof.
  unfold generate_log_line, log_line_of.
  rewrite !bind_run. unfold ret at 1; cbn [fst].
  eexists _, _, _. reflexivity.
Qed.

Lemma generate_commit_service (svc : string) ts w :
  service (fst (generate_commit svc ts w)) = svc.
Proof.
  unfold generate_commit. rewrite !bind_run. reflexivity.
Qed.

Lemma service_logs_owner n start entry w :
  Forall (fun r => log_line_of (snd entry) (payload r))
         (fst (service_logs n start entry w)).
Proof.
  destruct entry as [idx s]; cbn [snd]. unfold service_logs.
  apply repeatM_Forall. intros w0.
  unfold generate_log_record. rewrite !bind_run; cbn [fst payload ret].
  apply generate_log_line_shape.
Qed.

Lemma service_commits_owner n start entry w :
  Forall (fun r => service (payload r) = snd entry)
         (fst (service_commits n start entry w)).
Proof.
  destruct entry as [idx s]; cbn [snd]. unfold service_commits.
  apply repeatM_Forall. intros w0.
  unfold generate_commit_record. rewrite !bind_run; cbn [fst payload ret].
  apply generate_commit_service.
Qed.

(** C3.  For [num_logs] in [[1, 10000]] and [num_commits] in [[1, 1000]]:
    the count of each of the six services is [n / 6] or [n / 6 + 1], the
    services at the first [n mod 6] catalog positions are exactly those
    with the extra record, and the counts add up to [n]; and the two
    handlers generate, for the service at each position, that many
    records, all of them for that service. *)
Theorem allocation_even_split :
  forall num_logs num_commits : Z,
    1 <= num_logs <= 10000 ->
    1 <= num_commits <= 1000 ->
    even_split (service_log_count num_logs) num_logs
    /\ even_split (service_commit_count num_commits) num_commits
    /\ (forall start w,
           let blocks :=
             fst (mapM (service_logs num_logs start) (enumerate SERVICES) w) in
           map (@List.length _) blocks
           = map (fun idx => Z.to_nat (service_log_count num_logs idx))
                 positions
           /\ Forall2 (fun entry block =>
                         Forall (fun r => log_line_of (snd entry) (payload r))
                                block)
                      (enumerate SERVICES) blocks)
    /\ (forall start w,
           let blocks :=
             fst (mapM (service_commits num_commits start)
                       (enumerate SERVICES) w) in
           map (@List.length _) blocks
           = map (fun idx => Z.to_nat (service_commit_count num_commits idx))
                 positions
           /\ Forall2 (fun entry block =>
                         Forall (fun r => service (payload r) = snd entry)
                                block)
                      (enumerate SERVICES) blocks).
Proof.
  intros num_logs num_commits Hl Hc.
  split; [apply (even_split_holds num_logs); lia|].
  split; [apply (even_split_holds num_commits); lia|].
  split; intros start w blocks; (split; [|apply mapM_Forall2]).
  - apply log_blocks_lengths.
  - intros; apply service_logs_owner.
  - apply commit_blocks_lengths.
  - intros; apply service_commits_owner.
Qed.

Lemma allocation_even_split_witness :
  1 <= 8 <= 10000 /\ 1 <= 1000 <= 1000
  /\ even_split (service_log_count 8) 8
  /\ even_split (service_commit_count 1000) 1000.
Proof.
  assert (H1 : 1 <= 8 <= 10000) by lia.
  assert (H2 : 1 <= 1000 <= 1000) by lia.
  split; [exact H1|]. split; [exact H2|].
  split.
  - exact (proj1 (allocation_even_split 8 1000 H1 H2)).
  - exact (proj1 (proj2 (allocation_even_split 8 1000 H1 H2))).
Defined.

(** ** The two listing handlers *)

Lemma sorted_logs_Forall (P : Stamped string -> Prop) n start :
  (forall svc w, P (fst (generate_log_record start svc w))) ->
  forall w, Forall P (fst (sorted_logs n start w)).
Proof.
  intros HP w. unfold sorted_logs. rewrite bind_run; cbn [fst ret].
  apply (Permutation_Forall (Permutation_sym (sort_by_perm _ _))).
  apply Forall_concat. apply mapM_Forall.
  intros [idx svc] w0. unfold service_logs.
  apply repeatM_Forall. apply HP.
Qed.

Lemma sorted_commits_Forall (P : Stamped Commit -> Prop) n start :
  (forall svc w, P (fst (generate_commit_record start svc w))) ->
  forall w, Forall P (fst (sorted_commits n start w)).
Proof.
  intros HP w. unfold sorted_commits. rewrite bind_run; cbn [fst ret].
  apply (Permutation_Forall (Permutation_sym (sort_by_reverse_perm _ _))).
  apply Forall_concat. apply mapM_Forall.
  intros [idx svc] w0. unfold service_commits.
  apply repeatM_Forall. apply HP.
Qed.

Lemma sorted_logs_length n start w :
  0 <= n -> len (fst (sorted_logs n start w)) = n.
Proof.
  intros Hn. unfold sorted_logs. rewrite bind_run; cbn [fst ret].
  unfold len. rewrite sort_by_length.
  apply (blocks_total _ n Hn). apply log_blocks_lengths.
Qed.

Lemma sorted_commits_length n start w :
  0 <= n -> len (fst (sorted_commits n start w)) = n.
Proof.
  intros Hn. unfold sorted_commits. rewrite bind_run; cbn [fst ret].
  unfold len. rewrite sort_by_reverse_length.
  apply (blocks_total _ n Hn). apply commit_blocks_lengths.
Qed.

Lemma sorted_logs_ascending n start w :
  ascending (fst (sorted_logs n start w)).
Proof.
  unfold sorted_logs. rewrite bind_run; cbn [fst ret].
  apply sort_by_sorted.
Qed.

Lemma sorted_commits_descending n start w :
  descending (fst (sorted_commits n start w)).
Proof.
  unfold sorted_commits. rewrite bind_run; cbn [fst ret].
  apply sort_by_reverse_sorted.
Qed.

Lemma StronglySorted_weaken {A} (R R' : A -> A -> Prop) (l : list A) :
  (forall a b, R a b -> R' a b) -> StronglySorted R l -> StronglySorted R' l.
Proof.
  intros HR. induction 1 as [|x rest Hs IH Hall]; constructor.
  - exact IH.
  - eapply Forall_impl; [|exact Hall]. intros b. apply HR.
Qed.

Lemma get_logs_run (n : Z) (w : World) :
  fst (get_logs n w)
  = let start_time := clock w - Datetime.hours 1 in
    let log_lines := map payload (fst (sorted_logs n start_time w)) in
    mkLogsResponse CLUSTER_NAME (len SERVICES) SERVICES (len log_lines)
      (mkTimeRange (Datetime.isoformat start_time)
                   (Datetime.isoformat (clock w)))
      (Py.join newline log_lines).
Proof.
  unfold get_logs. rewrite !bind_run. reflexivity.
Qed.

Lemma get_commit_history_run (n : Z) (w : World) :
  fst (get_commit_history n w)
  = let start_time := clock w - Datetime.days 30 in
    let commits := fst (sorted_commits n start_time w) in
    mkCommitHistoryResponse CLUSTER_NAME (len commits) SERVICES
      (mkTimeRange (Datetime.isoformat start_time)
                   (Datetime.isoformat (clock w)))
      (Py.join newline (map (fun c => format_commit (payload c)) commits)).
Proof.
  unfold get_commit_history. rewrite !bind_run. reflexivity.
Qed.

Lemma generate_log_record_stamped start svc w :
  line_stamped (fst (generate_log_record start svc w)).
Proof.
  unfold generate_log_record, line_stamped.
  rewrite !bind_run; cbn [fst ret payload timestamp].
  unfold generate_log_line. rewrite !bind_run. unfold ret at 1; cbn [fst].
  eexists. reflexivity.
Qed.

Lemma generate_commit_record_dated start svc w :
  commit_dated (fst (generate_commit_record start svc w)).
Proof.
  unfold generate_commit_record, commit_dated.
  rewrite !bind_run; cbn [fst ret payload timestamp].
  unfold generate_commit. rewrite !bind_run. reflexivity.
Qed.

(** C4.  For [num_logs] in [[1, 10000]], [log_count] is [num_logs] and
    [logs] is the newline-joined lines of records that are in
    non-decreasing order of the timestamps they were generated with; each
    line starts with that timestamp, printed to the millisecond, and the
    printed milliseconds are in non-decreasing order too. *)
Theorem get_logs_count_and_order :
  forall (num_logs : Z) (w : World),
    1 <= num_logs <= 10000 ->
    let r := fst (get_logs num_logs w) in
    let records := fst (sorted_logs num_logs (clock w - Datetime.hours 1) w) in
    log_count r = num_logs
    /\ logs r = Py.join newline (map payload records)
    /\ len records = num_logs
    /\ ascending records
    /\ Forall line_stamped records
    /\ StronglySorted
         (fun a b => timestamp a / 1000 <= timestamp b / 1000) records.
Proof.
  intros n w Hn r records. unfold r. rewrite get_logs_run.
  cbn [log_count logs]. fold records.
  assert (Hlen : len records = n) by (apply sorted_logs_length; lia).
  assert (Hasc : ascending records) by apply sorted_logs_ascending.
  split.
  { unfold len in *. now rewrite length_map. }
  split; [reflexivity|].
  split; [exact Hlen|].
  split; [exact Hasc|].
  split.
  { apply sorted_logs_Forall. apply generate_log_record_stamped. }
  apply (StronglySorted_weaken _ _ _ (fun a b H => Z.div_le_mono _ _ 1000 eq_refl H)
           Hasc).
Qed.

(** C8.  For [num_commits] in [[1, 1000]], [commits] is the newline-joined
    formatted blocks of records that were first sorted into non-increasing
    order of the timestamps they were generated with; the [Date:] of each
    block is that timestamp, printed to the second, and the printed
    seconds are in non-increasing order too.  There are [num_commits]
    blocks. *)
Theorem get_commit_history_descending :
  forall (num_commits : Z) (w : World),
    1 <= num_commits <= 1000 ->
    let r := fst (get_commit_history num_commits w) in
    let records :=
      fst (sorted_commits num_commits (clock w - Datetime.days 30) w) in
    commits r
    = Py.join newline (map (fun c => format_commit (payload c)) records)
    /\ descending records
    /\ Forall commit_dated records
    /\ StronglySorted
         (fun a b => timestamp b / 1000000 <= timestamp a / 1000000) records
    /\ total_commits r = num_commits.
Proof.
  intros n w Hn r records. unfold r. rewrite get_commit_history_run.
  cbn [commits total_commits]. fold records.
  assert (Hdesc : descending records) by apply sorted_commits_descending.
  split; [reflexivity|].
  split; [exact Hdesc|].
  split; [apply sorted_commits_Forall, generate_commit_record_dated|].
  split.
  { apply (StronglySorted_weaken _ _ _
             (fun a b H => Z.div_le_mono _ _ 1000000 eq_refl H) Hdesc). }
  apply sorted_commits_length; lia.
Qed.

Lemma get_logs_count_and_order_witness :
  1 <= 8 <= 10000
  /\ log_count (fst (get_logs 8 sample_world)) = 8
  /\ ascending (fst (sorted_logs 8 (clock sample_world - Datetime.hours 1)
                                 sample_world)).
Proof.
  assert (H : 1 <= 8 <= 10000) by lia.
  split; [exact H|].
  split.
  - exact (proj1 (get_logs_count_and_order 8 sample_world H)).
  - exact (proj1 (proj2 (proj2 (proj2
             (get_logs_count_and_order 8 sample_world H))))).
Defined.

Lemma get_commit_history_descending_witness :
  1 <= 3 <= 1000
  /\ descending (fst (sorted_commits 3 (clock sample_world - Datetime.days 30)
                                     sample_world))
  /\ total_commits (fst (get_commit_history 3 sample_world)) = 3.
Proof.
  assert (H : 1 <= 3 <= 1000) by lia.
  split; [exact H|].
  split.
  - exact (proj1 (proj2 (get_commit_history_descending 3 sample_world H))).
  - exact (proj2 (proj2 (proj2 (proj2
             (get_commit_history_descending 3 sample_world H))))).
Defined.

(** ** Time windows *)

Lemma seconds_bounds (b : Z) (x : Q) :
  (0 <= x)%Q -> (x <= inject_Z b)%Q ->
  0 <= Datetime.seconds x <= b * Datetime.us_per_second.
Proof.
  intros H0 Hb. unfold Datetime.seconds.
  apply round_half_even_bounds.
  - change (inject_Z 0) with (0 * inject_Z Datetime.us_per_second)%Q.
    apply Qmult_le_compat_r; [exact H0 | discriminate].
  - rewrite inject_Z_mult.
    apply Qmult_le_compat_r; [exact Hb | discriminate].
Qed.

Lemma generate_log_record_within start svc w :
  within start (start + Datetime.hours 1)
         (fst (generate_log_record start svc w)).
Proof.
  unfold generate_log_record, within.
  rewrite !bind_run; cbn [fst ret timestamp].
  destruct (uniform_bounds 0 3600 w ltac:(lia)) as [H0 H1].
  pose proof (seconds_bounds 3600 (fst (Random.uniform 0 3600 w)) H0 H1)
    as Hs.
  unfold Datetime.hours. lia.
Qed.

Lemma generate_commit_record_within start svc w :
  within start (start + Datetime.days 30)
         (fst (generate_commit_record start svc w)).
Proof.
  unfold generate_commit_record, within.
  rewrite !bind_run; cbn [fst ret timestamp].
  destruct (uniform_bounds 0 (30 * 24 * 3600) w ltac:(lia)) as [H0 H1].
  pose proof (seconds_bounds (30 * 24 * 3600)
                (fst (Random.uniform 0 (inject_Z (30 * 24 * 3600)) w)) H0 H1)
    as Hs.
  unfold Datetime.days, Datetime.us_per_day. lia.
Qed.

(** C10.  Every record of a [/logs] response carries a timestamp in the
    closed interval from one hour before the request time to the request
    time, and every record of a [/commit_history] response one in the
    closed interval from thirty days before it to it; these bounds, in ISO
    format, are the [time_range] of the same response. *)
Theorem timestamps_within_time_range :
  forall (n : Z) (w : World),
    let end_time := clock w in
    (let start_time := end_time - 3600 * 1000000 in
     Forall (within start_time end_time)
            (fst (sorted_logs n start_time w))
     /\ logs (fst (get_logs n w))
        = Py.join newline (map payload (fst (sorted_logs n start_time w)))
     /\ logs_time_range (fst (get_logs n w))
        = mkTimeRange (Datetime.isoformat start_time)
                      (Datetime.isoformat end_time))
    /\ (let start_time := end_time - 30 * 86400 * 1000000 in
        Forall (within start_time end_time)
               (fst (sorted_commits n start_time w))
        /\ commits (fst (get_commit_history n w))
           = Py.join newline
               (map (fun c => format_commit (payload c))
                    (fst (sorted_commits n start_time w)))
        /\ history_time_range (fst (get_commit_history n w))
           = mkTimeRange (Datetime.isoformat start_time)
                         (Datetime.isoformat end_time)).
Proof.
  intros n w end_time. split; intros start_time.
  - split; [|split; rewrite get_logs_run; reflexivity].
    apply sorted_logs_Forall. intros svc w0.
    replace end_time with (start_time + Datetime.hours 1)
      by (unfold start_time, Datetime.hours, Datetime.us_per_second; lia).
    apply generate_log_record_within.
  - split; [|split; rewrite get_commit_history_run; reflexivity].
    apply sorted_commits_Forall. intros svc w0.
    replace end_time with (start_time + Datetime.days 30)
      by (unfold start_time, Datetime.days, Datetime.us_per_day,
            Datetime.us_per_second; lia).
    apply generate_commit_record_within.
Qed.

(** ** Query validation *)

Lemma endpoint_rejects {A} (q : Query) (handler : Z -> M A) (v : Z) w :
  v < q_ge q \/ q_le q < v ->
  endpoint q handler (Some v) w = (ClientError 422, w).
Proof.
  intros H. unfold endpoint, validate.
  destruct (Z.leb_spec (q_ge q) v), (Z.leb_spec v (q_le q));
    cbn [andb]; try reflexivity; lia.
Qed.

Lemma endpoint_accepts {A} (q : Query) (handler : Z -> M A) (v : Z) w :
  q_ge q <= v <= q_le q ->
  endpoint q handler (Some v) w = (Ok (fst (handler v w)), snd (handler v w)).
Proof.
  intros H. unfold endpoint, validate.
  destruct (Z.leb_spec (q_ge q) v), (Z.leb_spec v (q_le q));
    cbn [andb]; try lia.
  rewrite bind_run. reflexivity.
Qed.

(** C6.  A [/logs] request with [num_logs] outside [[1, 10000]], and a
    [/commit_history] request with [num_commits] outside [[1, 1000]], is
    answered by the 422 client error: the value is not clamped, the
    handler does not run, no draw is consumed and no body is produced. *)
Theorem out_of_bounds_rejected :
  forall (num_logs num_commits : Z) (w : World),
    num_logs < 1 \/ 10000 < num_logs ->
    num_commits < 1 \/ 1000 < num_commits ->
    logs_endpoint (Some num_logs) w = (ClientError 422, w)
    /\ commit_history_endpoint (Some num_commits) w = (ClientError 422, w)
    /\ (forall body w', logs_endpoint (Some num_logs) w <> (Ok body, w'))
    /\ (forall body w',
           commit_history_endpoint (Some num_commits) w <> (Ok body, w')).
Proof.
  intros nl nc w Hl Hc.
  assert (E1 : logs_endpoint (Some nl) w = (ClientError 422, w))
    by (apply endpoint_rejects; exact Hl).
  assert (E2 : commit_history_endpoint (Some nc) w = (ClientError 422, w))
    by (apply endpoint_rejects; exact Hc).
  repeat split; try assumption; intros body w'.
  - rewrite E1. discriminate.
  - rewrite E2. discriminate.
Qed.

Lemma out_of_bounds_rejected_witness :
  (0 < 1 \/ 10000 < 0) /\ (1001 < 1 \/ 1000 < 1001)
  /\ logs_endpoint (Some 0) sample_world = (ClientError 422, sample_world)
  /\ commit_history_endpoint (Some 1001) sample_world
     = (ClientError 422, sample_world).
Proof.
  assert (H1 : 0 < 1 \/ 10000 < 0) by (left; lia).
  assert (H2 : 1001 < 1 \/ 1000 < 1001) by (right; lia).
  split; [exact H1|]. split; [exact H2|].
  split.
  - exact (proj1 (out_of_bounds_rejected 0 1001 sample_world H1 H2)).
  - exact (proj1 (proj2 (out_of_bounds_rejected 0 1001 sample_world H1 H2))).
Defined.

(** Inside the bounds the handler runs on the value as given. *)
Lemma in_bounds_accepted (num_logs num_commits : Z) (w : World) :
  1 <= num_logs <= 10000 ->
  1 <= num_commits <= 1000 ->
  logs_endpoint (Some num_logs) w
  = (Ok (fst (get_logs num_logs w)), snd (get_logs num_logs w))
  /\ commit_history_endpoint (Some num_commits) w
     = (Ok (fst (get_commit_history num_commits w)),
        snd (get_commit_history num_commits w)).
Proof.
  intros Hl Hc. split; apply endpoint_accepts; assumption.
Qed.

(** ** The root endpoint *)

Lemma choice_pick {A} (d : A) (seq : list A) (w : World) :
  Random.choice d seq w = (pick d seq (draw w 0), advance 1 w).
Proof. apply choice_run. Qed.

Lemma read_root_run (w : World) :
  read_root w
  = let slept := mkWorld (tape w) (cursor w) (clock w + 3 * 1000000) in
    (pick (mkRootBody 200) [mkRootBody 200; mkRootBody 500] (draw slept 0),
     advance 1 slept).
Proof.
  unfold read_root, throw_error. rewrite !bind_run.
  unfold Datetime.sleep, ret; cbn [fst snd].
  apply choice_pick.
Qed.

(** The draw picks [{"status": 200}] for the lower half of the 2^53
    generator outputs and [{"status": 500}] for the upper half. *)
Lemma read_root_status (w : World) :
  let k := tape w (cursor w) mod 2 ^ 53 in
  status (fst (read_root w)) = if k <? 2 ^ 52 then 200 else 500.
Proof.
  intros k. rewrite read_root_run; cbn zeta; cbn [fst].
  unfold pick, draw, len; cbn [List.length cursor tape].
  rewrite Nat.add_0_r.
  change (Zpos Random.two53) with (2 ^ 53). fold k.
  assert (Hk : 0 <= k < 2 ^ 53) by (apply Z.mod_pos_bound; lia).
  assert (Hfloor : Qfloor ((k # Random.two53) * inject_Z 2) = k * 2 / 2 ^ 53).
  { unfold Qfloor, Qmult, inject_Z; cbn [Qnum Qden].
    rewrite Pos.mul_1_r. reflexivity. }
  change (Z.of_nat 2) with 2. rewrite Hfloor.
  change (2 ^ 53) with 9007199254740992 in *.
  change (2 ^ 52) with 4503599627370496 in *.
  destruct (Z.ltb_spec k 4503599627370496).
  - replace (k * 2 / 9007199254740992) with 0; [reflexivity|].
    symmetry; apply Z.div_small; lia.
  - replace (k * 2 / 9007199254740992) with 1; [reflexivity|].
    apply Z.div_unique with (k * 2 - 9007199254740992); lia.
Qed.

(** Every call sleeps: the clock is three seconds later on return,
    whichever body is returned. *)
Lemma read_root_always_sleeps (w : World) :
  clock (snd (read_root w)) = clock w + 3 * 1000000.
Proof. rewrite read_root_run. reflexivity. Qed.

(** C2.  Every call of the root endpoint returns [{"status": 200}] or
    [{"status": 500}], the first for the lower half of the 2^53 equally
    likely generator outputs and the second for the upper half; but every
    call sleeps three seconds, also the calls that return
    [{"status": 200}]: in the world whose next draw is zero the endpoint
    returns [{"status": 200}] three seconds late. *)
Theorem read_root_delays_ok_response :
  read_root zero_world
  = (mkRootBody 200, mkWorld (tape zero_world) 1 (3 * 1000000))
  /\ (forall w : World,
         status (fst (read_root w))
         = if tape w (cursor w) mod 2 ^ 53 <? 2 ^ 52 then 200 else 500)
  /\ (forall w : World,
         clock (snd (read_root w)) = clock w + 3 * 1000000).
Proof.
  split; [reflexivity|].
  split; [exact read_root_status | exact read_root_always_sleeps].
Qed.

(** ** Commit generator and formatter *)

Lemma pick_In {A} (d : A) (seq : list A) (u : Q) :
  seq <> [] -> (0 <= u < 1)%Q -> In (pick d seq u) seq.
Proof.
  intros Hne [H0 H1]. unfold pick. apply nth_In.
  assert (Hlen : 0 < len seq).
  { unfold len. destruct seq; [contradiction | simpl; lia]. }
  set (x := (u * inject_Z (len seq))%Q).
  assert (Hx0 : (0 <= x)%Q).
  { apply Qmult_le_0_compat; [exact H0|]. unfold Qle; simpl. lia. }
  assert (Hx1 : (x < inject_Z (len seq))%Q).
  { unfold x. rewrite <- (Qmult_1_l (inject_Z (len seq))) at 2.
    apply Qmult_lt_compat_r; [|exact H1]. unfold Qlt; simpl. lia. }
  assert (Hf0 : 0 <= Qfloor x).
  { rewrite <- (Qfloor_Z 0). now apply Qfloor_resp_le. }
  assert (Hf1 : Qfloor x < len seq).
  { rewrite Zlt_Qlt. apply Qle_lt_trans with x; [apply Qfloor_le | exact Hx1]. }
  unfold len in Hf1. lia.
Qed.

Lemma choices_run {A} (d : A) (population : list A) (k : nat) (w : World) :
  Random.choices d population k w
  = (map (fun i => pick d population (draw w i)) (seq 0 k), advance k w).
Proof.
  unfold Random.choices. revert w.
  induction k as [|k IH]; intros w.
  - simpl. unfold ret. now rewrite advance_0.
  - cbn [repeatM]. rewrite bind_run, choice_pick; cbn [fst snd].
    rewrite bind_run, IH; cbn [fst snd]. unfold ret.
    rewrite advance_advance. cbn [seq map]. f_equal. f_equal.
    rewrite <- seq_shift, map_map.
    apply map_ext. intros i. now rewrite draw_advance.
Qed.

Lemma generate_commit_run (svc : string) (ts : Datetime.datetime) (w : World) :
  generate_commit svc ts w
  = (mkCommit
       (string_of_list_ascii
          (map (fun i => pick "0"%char hex_alphabet (draw w i)) (seq 0 7)))
       (pick "" DEVELOPERS (draw w 7))
       (Datetime.strftime_seconds ts)
       (pick "" COMMIT_TYPES (draw w 8) ++ ": "
        ++ pick "" COMMIT_MESSAGES (draw w 9))
       svc
       (1 + Qfloor (draw w 10 * inject_Z (15 - 1 + 1)))
       (5 + Qfloor (draw w 11 * inject_Z (200 - 5 + 1)))
       (1 + Qfloor (draw w 12 * inject_Z (100 - 1 + 1))),
     advance 13 w).
Proof.
  unfold generate_commit.
  rewrite bind_run, choices_run; cbn [fst snd].
  do 3 (rewrite bind_run, choice_pick; cbn [fst snd]).
  do 3 (rewrite bind_run, randint_run; cbn [fst snd]).
  rewrite !advance_advance, !draw_advance; cbn [Nat.add].
  reflexivity.
Qed.

Lemma no_newline_app (a b : string) :
  no_newline (a ++ b) = no_newline a && no_newline b.
Proof.
  induction a as [|c rest IH]; simpl; [reflexivity|].
  now rewrite IH, andb_assoc.
Qed.

Lemma no_newline_uint (d : Decimal.uint) :
  no_newline (NilEmpty.string_of_uint d) = true.
Proof. induction d; simpl; auto. Qed.

Lemma no_newline_str (n : Z) : no_newline (Py.str n) = true.
Proof.
  unfold Py.str, NilZero.string_of_int, NilZero.string_of_uint.
  destruct (Z.to_int n) as [d|d]; destruct d; simpl;
    auto using no_newline_uint.
Qed.

Lemma no_newline_zpad (w : nat) (n : Z) :
  no_newline (Datetime.zpad w n) = true.
Proof.
  unfold Datetime.zpad. rewrite no_newline_app, no_newline_str, andb_true_r.
  induction (w - String.length (Py.str n))%nat; simpl; auto.
Qed.

Lemma no_newline_strftime_seconds (ts : Datetime.datetime) :
  no_newline (Datetime.strftime_seconds ts) = true.
Proof.
  unfold Datetime.strftime_seconds, Datetime.date_part, Datetime.time_part.
  rewrite !no_newline_app, !no_newline_zpad. reflexivity.
Qed.

Lemma no_newline_catalog (catalog : list string) (s : string) :
  forallb no_newline catalog = true -> In s catalog -> no_newline s = true.
Proof.
  intros Hall Hin. rewrite forallb_forall in Hall. now apply Hall.
Qed.

Lemma no_newline_hex (cs : list ascii) :
  Forall (fun c => In c hex_alphabet) cs ->
  no_newline (string_of_list_ascii cs) = true.
Proof.
  induction 1 as [|c rest Hc _ IH]; simpl; [reflexivity|].
  rewrite IH, andb_true_r.
  simpl in Hc.
  repeat (destruct Hc as [<-|Hc]; [reflexivity|]). contradiction.
Qed.

Lemma split_lines_no_newline (a : string) :
  no_newline a = true -> split_lines a = [a].
Proof.
  induction a as [|c rest IH]; simpl; [reflexivity|].
  intros H. apply andb_true_iff in H as [Hc Hrest].
  apply negb_true_iff in Hc. rewrite Hc, (IH Hrest). reflexivity.
Qed.

Lemma split_lines_cons (a b : string) :
  no_newline a = true ->
  split_lines (a ++ newline ++ b) = a :: split_lines b.
Proof.
  induction a as [|c rest IH]; intros H.
  - reflexivity.
  - cbn [no_newline] in H. apply andb_true_iff in H as [Hc Hrest].
    apply negb_true_iff in Hc.
    change (String c rest ++ newline ++ b)
      with (String c (rest ++ newline ++ b)).
    cbn [split_lines]. rewrite Hc, (IH Hrest). reflexivity.
Qed.

Lemma split_lines_join (ls : list string) :
  ls <> [] -> forallb no_newline ls = true ->
  split_lines (Py.join newline ls) = ls.
Proof.
  induction ls as [|l rest IH]; [contradiction|].
  intros _ H. cbn [forallb] in H. apply andb_true_iff in H as [Hl Hrest].
  destruct rest as [|l' rest'].
  - simpl. now apply split_lines_no_newline.
  - change (Py.join newline (l :: l' :: rest'))
      with (l ++ newline ++ Py.join newline (l' :: rest')).
    rewrite split_lines_cons by exact Hl.
    rewrite IH; [reflexivity | discriminate | exact Hrest].
Qed.

Lemma append_assoc (a b c : string) : (a ++ b) ++ c = a ++ (b ++ c).
Proof. induction a as [|x a IH]; simpl; [reflexivity | now rewrite IH]. Qed.

Lemma append_empty_r (a : string) : a ++ "" = a.
Proof. induction a as [|x a IH]; simpl; [reflexivity | now rewrite IH]. Qed.

(** The block is its lines, each closed by a newline. *)
Lemma format_commit_join (c : Commit) :
  format_commit c = Py.join newline (block_lines c ++ [""])%list.
Proof.
  unfold format_commit, block_lines.
  cbn [app Py.join]. rewrite !append_assoc. cbn [append].
  rewrite ?append_empty_r. reflexivity.
Qed.

Lemma length_string_of_list_ascii (cs : list ascii) :
  String.length (string_of_list_ascii cs) = List.length cs.
Proof. induction cs as [|c rest IH]; simpl; [reflexivity | now rewrite IH]. Qed.

Lemma hash_chars_hex (w : World) :
  Forall (fun c => In c hex_alphabet)
         (map (fun i => pick "0"%char hex_alphabet (draw w i)) (seq 0 7)).
Proof.
  apply Forall_forall. intros c Hc.
  apply in_map_iff in Hc as (i & <- & _).
  apply pick_In; [discriminate | apply draw_unit].
Qed.

Lemma hex_alphabet_lower_hex (c : ascii) :
  In c hex_alphabet -> is_lower_hex c = true.
Proof.
  assert (H : forallb is_lower_hex hex_alphabet = true) by reflexivity.
  rewrite forallb_forall in H. apply H.
Qed.

Lemma generated_fields_no_newline (svc : string) ts w :
  no_newline svc = true ->
  let c := fst (generate_commit svc ts w) in
  forallb no_newline (block_lines c ++ [""])%list = true.
Proof.
  intros Hsvc c. unfold c. rewrite generate_commit_run; cbn [fst].
  assert (Hhash := no_newline_hex _ (hash_chars_hex w)).
  assert (Hauthor : no_newline (pick "" DEVELOPERS (draw w 7)) = true).
  { apply (no_newline_catalog DEVELOPERS); [reflexivity|].
    apply pick_In; [discriminate | apply draw_unit]. }
  assert (Htype : no_newline (pick "" COMMIT_TYPES (draw w 8)) = true).
  { apply (no_newline_catalog COMMIT_TYPES); [reflexivity|].
    apply pick_In; [discriminate | apply draw_unit]. }
  assert (Hmsg : no_newline (pick "" COMMIT_MESSAGES (draw w 9)) = true).
  { apply (no_newline_catalog COMMIT_MESSAGES); [reflexivity|].
    apply pick_In; [discriminate | apply draw_unit]. }
  unfold block_lines.
  cbn [app forallb commit_hash author date message service files_changed
         insertions deletions].
  rewrite !no_newline_app, !no_newline_str, no_newline_strftime_seconds.
  rewrite Hhash, Hauthor, Htype, Hmsg, Hsvc. reflexivity.
Qed.

(** C9.  A generated commit has a hash of seven characters of
    [0123456789abcdef], the [i]-th chosen by the [i]-th draw alone, and the
    formatter renders it as the lines [commit <hash>], [Author: <author>],
    [Date:   <date>], [Service: <service>], an empty line, the message
    indented by four spaces, an empty line, and
    [    <files> files changed, <insertions> insertions(+), <deletions>
    deletions(-)], each closed by a newline. *)
Theorem commit_block_format :
  forall (svc : string) (ts : Datetime.datetime) (w : World),
    no_newline svc = true ->
    let c := fst (generate_commit svc ts w) in
    matches_hash_pattern (commit_hash c) = true
    /\ list_ascii_of_string (commit_hash c)
       = map (fun i => pick "0"%char hex_alphabet (draw w i)) (seq 0 7)
    /\ date c = Datetime.strftime_seconds ts
    /\ service c = svc
    /\ format_commit c = Py.join newline (block_lines c) ++ newline
    /\ split_lines (format_commit c) = (block_lines c ++ [""])%list.
Proof.
  intros svc ts w Hsvc c.
  assert (Hc : commit_hash c
               = string_of_list_ascii
                   (map (fun i => pick "0"%char hex_alphabet (draw w i))
                        (seq 0 7))).
  { unfold c. now rewrite generate_commit_run. }
  split.
  { rewrite Hc. unfold matches_hash_pattern.
    rewrite length_string_of_list_ascii, length_map, length_seq.
    rewrite list_ascii_of_string_of_list_ascii.
    cbn [Nat.eqb andb]. apply forallb_forall. intros ch Hch.
    apply hex_alphabet_lower_hex.
    pose proof (hash_chars_hex w) as Hall.
    rewrite Forall_forall in Hall. now apply Hall. }
  split; [rewrite Hc; apply list_ascii_of_string_of_list_ascii|].
  split; [unfold c; now rewrite generate_commit_run|].
  split; [unfold c; now rewrite generate_commit_run|].
  split.
  { unfold format_commit, block_lines. cbn [Py.join].
    rewrite !append_assoc. reflexivity. }
  rewrite format_commit_join. apply split_lines_join.
  - discriminate.
  - now apply generated_fields_no_newline.
Qed.

Lemma commit_block_format_witness :
  no_newline "auth-service" = true
  /\ matches_hash_pattern
       (commit_hash (fst (generate_commit "auth-service" 63840911415123456
                                          sample_world))) = true
  /\ split_lines
       (format_commit (fst (generate_commit "auth-service" 63840911415123456
                                            sample_world)))
     = (block_lines (fst (generate_commit "auth-service" 63840911415123456
                                          sample_world)) ++ [""])%list.
Proof.
  assert (H : no_newline "auth-service" = true) by reflexivity.
  split; [exact H|].
  split.
  - exact (proj1 (commit_block_format "auth-service" 63840911415123456
                    sample_world H)).
  - exact (proj2 (proj2 (proj2 (proj2 (proj2
             (commit_block_format "auth-service" 63840911415123456
                sample_world H)))))).
Defined.

(** The seven characters are drawn independently: every string of seven
    characters of the alphabet is the hash of some run of the generator. *)
Lemma every_hash_reachable (idxs : list Z) :
  List.length idxs = 7%nat ->
  Forall (fun i => 0 <= i < 16) idxs ->
  exists w : World,
    forall (svc : string) (ts : Datetime.datetime),
      list_ascii_of_string (commit_hash (fst (generate_commit svc ts w)))
      = map (fun i => nth (Z.to_nat i) hex_alphabet "0"%char) idxs.
Proof.
  intros Hlen Hall.
  exists (mkWorld (fun k => nth k idxs 0 * 2 ^ 49) 0 0).
  intros svc ts. rewrite generate_commit_run; cbn [fst commit_hash].
  rewrite list_ascii_of_string_of_list_ascii.
  assert (Hidx : idxs = map (fun k => nth k idxs 0) (seq 0 7)).
  { rewrite <- Hlen. clear. 
    induction idxs as [|x rest IH]; [reflexivity|].
    cbn [List.length seq map nth]. f_equal.
    rewrite <- seq_shift, map_map. exact IH. }
  transitivity (map (fun i => nth (Z.to_nat i) hex_alphabet "0"%char)
                    (map (fun k => nth k idxs 0) (seq 0 7)));
    [|now rewrite <- Hidx].
  rewrite map_map.
  apply map_ext_in. intros k Hk. apply in_seq in Hk.
  assert (Hi : 0 <= nth k idxs 0 < 16).
  { rewrite Forall_forall in Hall. apply Hall, nth_In. lia. }
  unfold pick, draw; cbn [tape cursor Nat.add].
  set (i := nth k idxs 0) in *.
  f_equal. f_equal.
  unfold Qfloor, Qmult, inject_Z, len; cbn [Qnum Qden].
  change (Z.of_nat (List.length hex_alphabet)) with 16.
  change (Zpos (Random.two53 * 1)) with (2 ^ 53).
  change (Zpos Random.two53) with (2 ^ 53).
  rewrite Z.mod_small by lia.
  replace (i * 2 ^ 49 * 16) with (i * 2 ^ 53) by lia.
  apply Z.div_mul. lia.
Qed.

(** The block of a concrete commit, character for character. *)
Example format_commit_example :
  format_commit
    (mkCommit "08f6d4b" "bob.smith" "2024-01-03 18:25:30"
              "docs: update dependencies to latest versions"
              "payment-service" 8 195 42)
  = "commit 08f6d4b" ++ newline
    ++ "Author: bob.smith" ++ newline
    ++ "Date:   2024-01-03 18:25:30" ++ newline
    ++ "Service: payment-service" ++ newline
    ++ newline
    ++ "    docs: update dependencies to latest versions" ++ newline
    ++ newline
    ++ "    8 files changed, 195 insertions(+), 42 deletions(-)" ++ newline.
Proof. reflexivity. Qed.

(** ** Fixed-width decimal fields *)

Lemma of_lu_digit_of (k : Z) (d : Decimal.uint) :
  0 <= k <= 9 ->
  Z.of_N (DecimalPos.Unsigned.of_lu (digit_of k d)) = k + 10 * Z.of_N (DecimalPos.Unsigned.of_lu d).
Proof.
  intros Hk.
  assert (H : k = 0 \/ k = 1 \/ k = 2 \/ k = 3 \/ k = 4 \/ k = 5 \/ k = 6
              \/ k = 7 \/ k = 8 \/ k = 9) by lia.
  repeat (destruct H as [->|H]; [cbn [digit_of DecimalPos.Unsigned.of_lu]; lia|]).
  subst k. cbn [digit_of DecimalPos.Unsigned.of_lu]. lia.
Qed.

Lemma of_lu_little_digits (w : nat) :
  forall n, 0 <= n ->
  Z.of_N (DecimalPos.Unsigned.of_lu (little_digits w n)) = n mod 10 ^ Z.of_nat w.
Proof.
  induction w as [|w IH]; intros n Hn.
  - simpl. now rewrite Z.mod_1_r.
  - cbn [little_digits].
    rewrite of_lu_digit_of by (pose proof (Z.mod_pos_bound n 10); lia).
    rewrite IH by (apply Z.div_pos; lia).
    rewrite Nat2Z.inj_succ, Z.pow_succ_r by lia.
    rewrite Z.rem_mul_r; lia.
Qed.

Lemma nb_digits_little_digits (w : nat) (n : Z) :
  Decimal.nb_digits (little_digits w n) = w.
Proof.
  revert n; induction w as [|w IH]; intros n; [reflexivity|].
  cbn [little_digits]. specialize (IH (n / 10)).
  unfold digit_of.
  destruct (n mod 10) as [|p|p]; try (simpl; now rewrite IH).
  do 4 (destruct p as [p|p|]; try (simpl; now rewrite IH)).
Qed.

Lemma length_string_of_uint (d : Decimal.uint) :
  String.length (NilEmpty.string_of_uint d) = Decimal.nb_digits d.
Proof. induction d; simpl; congruence. Qed.

Lemma all_digits_string_of_uint (d : Decimal.uint) :
  all_digits (NilEmpty.string_of_uint d) = true.
Proof. induction d; simpl; auto. Qed.

Lemma nilzero_nonnil (d : Decimal.uint) :
  d <> Decimal.Nil -> NilZero.string_of_uint d = NilEmpty.string_of_uint d.
Proof. destruct d; [contradiction | reflexivity ..]. Qed.

(** Padding with zeros restores the leading zeros that normalisation
    strips. *)
Lemma pad_unorm (d : Decimal.uint) :
  d <> Decimal.Nil ->
  zeros (Decimal.nb_digits d
         - String.length (NilZero.string_of_uint (Decimal.unorm d)))
  ++ NilZero.string_of_uint (Decimal.unorm d)
  = NilEmpty.string_of_uint d.
Proof.
  induction d as [|d IH|d _|d _|d _|d _|d _|d _|d _|d _|d _]; intros Hne;
    try contradiction;
    try (cbn [Decimal.unorm Decimal.nzhead];
         rewrite nilzero_nonnil by discriminate;
         rewrite length_string_of_uint, Nat.sub_diag; reflexivity).
  rewrite DecimalFacts.unorm_D0.
  destruct d as [|d'|d'|d'|d'|d'|d'|d'|d'|d'|d'];
    [reflexivity| | | | | | | | | |].
  all: match goal with
       | |- context [Decimal.unorm ?x] =>
           specialize (IH ltac:(discriminate));
           pose proof (DecimalFacts.nb_digits_unorm x ltac:(discriminate)) as Hle;
           pose proof (DecimalFacts.unorm_nonnil x) as Hnn;
           rewrite (nilzero_nonnil _ Hnn) in *;
           rewrite length_string_of_uint in *;
           change (Decimal.nb_digits (Decimal.D0 x))
             with (S (Decimal.nb_digits x));
           rewrite Nat.sub_succ_l by exact Hle;
           change (NilEmpty.string_of_uint (Decimal.D0 x))
             with (String "0" (NilEmpty.string_of_uint x));
           rewrite <- IH; reflexivity
       end.
Qed.

Lemma str_little_digits (w : nat) (n : Z) :
  0 <= n < 10 ^ Z.of_nat w ->
  Py.str n
  = NilZero.string_of_uint (Decimal.unorm (Decimal.rev (little_digits w n))).
Proof.
  intros Hn. unfold Py.str.
  assert (E : Z.of_int (Decimal.Pos (Decimal.rev (little_digits w n))) = n).
  { cbn [Z.of_int]. unfold Z.of_uint.
    rewrite DecimalPos.Unsigned.of_lu_rev, of_lu_little_digits by lia.
    apply Z.mod_small; lia. }
  rewrite <- E at 1. rewrite DecimalZ.to_of. reflexivity.
Qed.

Lemma zpad_fixed_width (w : nat) (n : Z) :
  (0 < w)%nat -> 0 <= n < 10 ^ Z.of_nat w ->
  Datetime.zpad w n = fixed_width w n.
Proof.
  intros Hw Hn. unfold Datetime.zpad, fixed_width.
  rewrite (str_little_digits w n Hn).
  set (d := Decimal.rev (little_digits w n)).
  assert (Hnb : Decimal.nb_digits d = w).
  { unfold d. now rewrite DecimalFacts.nb_digits_rev, nb_digits_little_digits. }
  assert (Hne : d <> Decimal.Nil).
  { intros E. rewrite E in Hnb. simpl in Hnb. lia. }
  rewrite <- Hnb at 1. apply (pad_unorm d Hne).
Qed.

Lemma fixed_width_shape (w : nat) (n : Z) :
  String.length (fixed_width w n) = w /\ all_digits (fixed_width w n) = true.
Proof.
  unfold fixed_width. split.
  - now rewrite length_string_of_uint, DecimalFacts.nb_digits_rev, nb_digits_little_digits.
  - apply all_digits_string_of_uint.
Qed.

(** ** Calendar fields and the shape of [isoformat] *)

Lemma month_day_bounds (n : Z) (leapyear : bool) :
  0 <= n < 365 -> month_day_ok n leapyear = true.
Proof.
  intros Hn.
  assert (Hall : forallb (fun k => month_day_ok (Z.of_nat k) true
                                   && month_day_ok (Z.of_nat k) false)
                         (seq 0 365) = true) by (vm_compute; reflexivity).
  rewrite forallb_forall in Hall.
  specialize (Hall (Z.to_nat n)).
  rewrite Z2Nat.id in Hall by lia.
  assert (Hin : In (Z.to_nat n) (seq 0 365)) by (apply in_seq; lia).
  apply Hall in Hin. apply andb_true_iff in Hin as [Ht Hf].
  destruct leapyear; assumption.
Qed.

Lemma ord2ymd_bounds (n0 : Z) :
  0 <= n0 < 3652059 ->
  let '(y, m, d) := Datetime._ord2ymd n0 in
  1 <= y <= 9999 /\ 1 <= m <= 12 /\ 1 <= d <= 31.
Proof.
  intros Hn0. unfold Datetime._ord2ymd.
  unfold Datetime._DI400Y, Datetime._DI100Y, Datetime._DI4Y.
  set (n400 := n0 / 146097).
  set (r400 := n0 mod 146097).
  set (n100 := r400 / 36524).
  set (r100 := r400 mod 36524).
  set (n4 := r100 / 1461).
  set (r4 := r100 mod 1461).
  set (n1 := r4 / 365).
  set (n := r4 mod 365).
  cbv zeta.
  assert (Hy : 1 <= n400 * 400 + 1 + (n100 * 100 + n4 * 4 + n1)
               /\ (n1 = 4 \/ n100 = 4 \/
                   n400 * 400 + 1 + (n100 * 100 + n4 * 4 + n1) <= 9999)
               /\ (n1 = 4 \/ n100 = 4 ->
                   2 <= n400 * 400 + 1 + (n100 * 100 + n4 * 4 + n1) <= 10000)).
  { subst n400 r400 n100 r100 n4 r4 n1. 
    Z.div_mod_to_equations. lia. }
  assert (Hn : 0 <= n < 365) by (subst n; apply Z.mod_pos_bound; lia).
  destruct (Z.eqb_spec n1 4) as [E1|E1]; cbn [orb].
  { lia. }
  destruct (Z.eqb_spec n100 4) as [E2|E2].
  { lia. }
  set (leapyear := (n1 =? 3) && (negb (n4 =? 24) || (n100 =? 3))).
  pose proof (month_day_bounds n leapyear Hn) as Hmd.
  unfold month_day_ok, month_day in Hmd. cbv zeta in Hmd.
  destruct (n <? _); lia.
Qed.

Lemma match_digits (k : nat) (a b : string) (p : list Pat) :
  String.length a = k -> all_digits a = true ->
  match_prefix (digits k ++ p) (a ++ b) = match_prefix p b.
Proof.
  revert a; induction k as [|k IH]; intros a Hlen Hall.
  - destruct a; [reflexivity | discriminate].
  - destruct a as [|c a]; [discriminate|].
    cbn [all_digits] in Hall. apply andb_true_iff in Hall as [Hc Ha].
    cbn [digits repeat app append match_prefix pat_matches].
    rewrite Hc. apply IH; [now injection Hlen | exact Ha].
Qed.

Lemma match_zpad (w : nat) (n : Z) (b : string) (p : list Pat) :
  (0 < w)%nat -> 0 <= n < 10 ^ Z.of_nat w ->
  match_prefix (digits w ++ p) (Datetime.zpad w n ++ b) = match_prefix p b.
Proof.
  intros Hw Hn. rewrite zpad_fixed_width by assumption.
  destruct (fixed_width_shape w n) as [Hlen Hall].
  now apply match_digits.
Qed.

Lemma match_zpad_end (w : nat) (n : Z) :
  (0 < w)%nat -> 0 <= n < 10 ^ Z.of_nat w ->
  match_prefix (digits w) (Datetime.zpad w n) = Some EmptyString.
Proof.
  intros Hw Hn.
  rewrite <- (List.app_nil_r (digits w)), <- (append_empty_r (Datetime.zpad w n)).
  now rewrite match_zpad.
Qed.

Lemma time_fields_bounds (t : Datetime.datetime) :
  0 <= t ->
  0 <= Datetime.hour t < 24 /\ 0 <= Datetime.minute t < 60
  /\ 0 <= Datetime.second t < 60 /\ 0 <= Datetime.microsecond t < 1000000.
Proof.
  intros Ht.
  unfold Datetime.hour, Datetime.minute, Datetime.second,
    Datetime.microsecond, Datetime.us_per_day, Datetime.us_per_second.
  Z.div_mod_to_equations. lia.
Qed.

Lemma date_fields_bounds (t : Datetime.datetime) :
  valid_datetime t ->
  1 <= Datetime.year t <= 9999 /\ 1 <= Datetime.month t <= 12
  /\ 1 <= Datetime.day t <= 31.
Proof.
  intros [H0 H1].
  unfold Datetime.year, Datetime.month, Datetime.day.
  assert (Hd : 0 <= t / Datetime.us_per_day < 3652059).
  { unfold Datetime.us_per_day, Datetime.us_per_second in *.
    Z.div_mod_to_equations. lia. }
  pose proof (ord2ymd_bounds _ Hd) as H.
  destruct (Datetime._ord2ymd (t / Datetime.us_per_day)) as [[y m] d].
  exact H.
Qed.

(** [isoformat] of a datetime has the ISO 8601 shape. *)
Lemma isoformat_shape (t : Datetime.datetime) :
  valid_datetime t -> iso8601_shape (Datetime.isoformat t) = true.
Proof.
  intros Hv.
  destruct (date_fields_bounds t Hv) as (Hy & Hm & Hd).
  destruct (time_fields_bounds t (proj1 Hv)) as (Hh & Hmi & Hs & Hus).
  unfold iso8601_shape, Datetime.isoformat, Datetime.date_part,
    Datetime.time_part, iso_seconds_pattern.
  rewrite !append_assoc.
  rewrite match_zpad by (simpl; lia).
  cbn [append match_prefix pat_matches Ascii.eqb Bool.eqb].
  rewrite match_zpad by (simpl; lia).
  cbn [append match_prefix pat_matches Ascii.eqb Bool.eqb].
  rewrite match_zpad by (simpl; lia).
  cbn [append match_prefix pat_matches Ascii.eqb Bool.eqb].
  rewrite match_zpad by (simpl; lia).
  cbn [append match_prefix pat_matches Ascii.eqb Bool.eqb].
  rewrite match_zpad by (simpl; lia).
  cbn [append match_prefix pat_matches Ascii.eqb Bool.eqb].
  rewrite <- (List.app_nil_r (digits 2)), match_zpad by (simpl; lia).
  cbn [match_prefix].
  destruct (Datetime.microsecond t =? 0); [reflexivity|].
  unfold iso_fraction_pattern.
  cbn [append match_prefix pat_matches Ascii.eqb Bool.eqb].
  rewrite match_zpad_end by (simpl; lia).
  reflexivity.
Qed.

(** ** The metrics endpoint *)

Lemma services_in_catalog_order (w : World) :
  map service_name (fst (mapM generate_service_metrics SERVICES w)) = SERVICES.
Proof.
  assert (H : forall xs w0,
             map service_name (fst (mapM generate_service_metrics xs w0)) = xs).
  { intros xs; induction xs as [|x rest IH]; intros w0; simpl.
    - reflexivity.
    - rewrite !bind_run; simpl. rewrite IH.
      now rewrite generate_service_metrics_run. }
  apply H.
Qed.

(** C7.  A [GET /metrics] response holds exactly six entries, whose
    service names are the catalog [SERVICES] in catalog order, each name
    once; the cluster name is the fixed one; and the timestamp is the ISO
    format of the clock at the time of the request, a string of the ISO
    8601 shape. *)
Theorem get_metrics_lists_catalog :
  forall w : World,
    valid_datetime (clock w) ->
    let r := fst (get_metrics w) in
    map service_name (metrics_services r) = SERVICES
    /\ List.length (metrics_services r) = 6%nat
    /\ NoDup (map service_name (metrics_services r))
    /\ metrics_cluster_name r = "production-cluster-01"
    /\ metrics_timestamp r = Datetime.isoformat (clock w)
    /\ iso8601_shape (metrics_timestamp r) = true.
Proof.
  intros w Hclock r. unfold r. rewrite get_metrics_run.
  cbn [metrics_services metrics_cluster_name metrics_timestamp].
  rewrite services_in_catalog_order.
  split; [reflexivity|].
  split; [now rewrite mapM_length|].
  split.
  { unfold SERVICES.
    repeat (constructor; [simpl; intuition discriminate|]). constructor. }
  split; [reflexivity|].
  split; [reflexivity|].
  now apply isoformat_shape.
Qed.

Lemma get_metrics_lists_catalog_witness :
  valid_datetime (clock sample_world)
  /\ map service_name (metrics_services (fst (get_metrics sample_world)))
     = SERVICES
  /\ iso8601_shape (metrics_timestamp (fst (get_metrics sample_world))) = true.
Proof.
  assert (H : valid_datetime (clock sample_world)).
  { unfold valid_datetime, sample_world, Datetime.us_per_day,
      Datetime.us_per_second; cbn [clock]. lia. }
  split; [exact H|].
  split.
  - exact (proj1 (get_metrics_lists_catalog sample_world H)).
  - exact (proj2 (proj2 (proj2 (proj2 (proj2
             (get_metrics_lists_catalog sample_world H)))))).
Defined.

(** ** The library models on concrete inputs *)

Example iso8601_shape_examples :
  iso8601_shape "2024-01-15T10:30:15" = true
  /\ iso8601_shape "2024-01-15T10:30:15.123456" = true
  /\ iso8601_shape "2024-01-15 10:30:15" = false
  /\ iso8601_shape "2024-01-15T10:30:15.123" = false
  /\ iso8601_shape "24-01-15T10:30:15" = false.
Proof. repeat split; reflexivity. Qed.

Example matches_hash_pattern_examples :
  matches_hash_pattern "08f6d4b" = true
  /\ matches_hash_pattern "08F6D4B" = false
  /\ matches_hash_pattern "08f6d4" = false
  /\ matches_hash_pattern "08f6d4bc" = false
  /\ matches_hash_pattern "08f6d4g" = false.
Proof. repeat split; reflexivity. Qed.

Example weighted_level_examples :
  fst (Random.choices_weighted "" LOG_LEVELS LOG_LEVEL_WEIGHTS zero_world)
  = "INFO"
  /\ fst (Random.choices_weighted "" LOG_LEVELS LOG_LEVEL_WEIGHTS
            (mkWorld (fun _ => 2 ^ 53 - 1) 0 0))
     = "ERROR"
  /\ fst (Random.choices_weighted "" LOG_LEVELS LOG_LEVEL_WEIGHTS
            (mkWorld (fun _ => 2 ^ 52 + 2 ^ 51) 0 0))
     = "DEBUG".
Proof. repeat split; vm_compute; reflexivity. Qed.

Example strftime_example :
  Datetime.strftime_micros (((738900 - 1) * 86400 + 37815) * 1000000 + 123456)
  = "2024-01-15 10:30:15.123456"%string.
Proof. vm_compute. reflexivity. Qed.

Example isoformat_example :
  Datetime.isoformat (((738900 - 1) * 86400 + 37815) * 1000000)
  = "2024-01-15T10:30:15"%string.
Proof. vm_compute. reflexivity. Qed.

Example format_example :
  format "Cache hit for key: {}" "user_1234" = "Cache hit for key: user_1234"%string.
Proof. reflexivity. Qed.

(** * Further properties *)

(** ** Ranges of the generated fields *)

Lemma floor_unit_bounds (u : Q) (n : Z) :
  (0 <= u < 1)%Q -> 0 < n -> 0 <= Qfloor (u * inject_Z n) < n.
Proof.
  intros [H0 H1] Hn.
  assert (Hx0 : (0 <= u * inject_Z n)%Q).
  { apply Qmult_le_0_compat; [exact H0|]. unfold Qle; simpl. lia. }
  assert (Hx1 : (u * inject_Z n < inject_Z n)%Q).
  { rewrite <- (Qmult_1_l (inject_Z n)) at 2.
    apply Qmult_lt_compat_r; [|exact H1]. unfold Qlt; simpl. lia. }
  split.
  - rewrite <- (Qfloor_Z 0). now apply Qfloor_resp_le.
  - rewrite Zlt_Qlt.
    apply Qle_lt_trans with (u * inject_Z n)%Q; [apply Qfloor_le | exact Hx1].
Qed.

Lemma randint_bounds (a b : Z) (w : World) :
  a <= b -> a <= fst (Random.randint a b w) <= b.
Proof.
  intros Hab. rewrite randint_run; cbn [fst].
  pose proof (floor_unit_bounds (draw w 0) (b - a + 1) (draw_unit w 0)
                ltac:(lia)).
  lia.
Qed.

Lemma rounded_uniform_bounds (a b : Z) (w : World) (i : nat) :
  a <= b ->
  (inject_Z a
   <= Py.round2 (inject_Z a + (inject_Z b - inject_Z a) * draw w i)
   <= inject_Z b)%Q.
Proof.
  intros Hab.
  pose proof (uniform_bounds a b (advance i w) Hab) as H.
  rewrite uniform_run in H; cbn [fst] in H.
  rewrite draw_advance, Nat.add_0_r in H.
  apply round2_bounds; apply H.
Qed.

Lemma metric_ranges_generated (svc : string) (w : World) :
  in_metric_ranges (fst (generate_service_metrics svc w)).
Proof.
  rewrite generate_service_metrics_run; cbn zeta.
  unfold in_metric_ranges;
    cbn [fst memory_mb p99_latency_ms request_rate_per_sec error_rate_percent].
  split.
  { pose proof (floor_unit_bounds (draw w 1) (2048 - 128 + 1) (draw_unit w 1)
                  ltac:(lia)).
    lia. }
  split; [apply (rounded_uniform_bounds 10 500); lia|].
  split; [apply (rounded_uniform_bounds 10 1000); lia|].
  apply (rounded_uniform_bounds 0 5); lia.
Qed.

(** X1.  Every record of the metrics generator, and so every entry of a
    [GET /metrics] response, has [memory_mb] in [[128, 2048]],
    [p99_latency_ms] in [[10, 500]], [request_rate_per_sec] in
    [[10, 1000]] and [error_rate_percent] in [[0, 5]]. *)
Theorem metrics_fields_in_range :
  (forall (svc : string) (w : World),
      in_metric_ranges (fst (generate_service_metrics svc w)))
  /\ (forall w : World,
         Forall in_metric_ranges (metrics_services (fst (get_metrics w)))).
Proof.
  split; [exact metric_ranges_generated|].
  intros w. rewrite get_metrics_run; cbn [metrics_services].
  apply mapM_Forall. exact metric_ranges_generated.
Qed.



Lemma commit_fields_generated (svc : string) ts (w : World) :
  commit_fields_in_range (fst (generate_commit svc ts w)).
Proof.
  rewrite generate_commit_run. unfold commit_fields_in_range.
  cbn [fst author message files_changed insertions deletions].
  split; [apply pick_In; [discriminate | apply draw_unit]|].
  split.
  { exists (pick "" COMMIT_TYPES (draw w 8)),
           (pick "" COMMIT_MESSAGES (draw w 9)).
    split; [apply pick_In; [discriminate | apply draw_unit]|].
    split; [apply pick_In; [discriminate | apply draw_unit]|].
    reflexivity. }
  pose proof (floor_unit_bounds (draw w 10) (15 - 1 + 1) (draw_unit w 10)
                ltac:(lia)).
  pose proof (floor_unit_bounds (draw w 11) (200 - 5 + 1) (draw_unit w 11)
                ltac:(lia)).
  pose proof (floor_unit_bounds (draw w 12) (100 - 1 + 1) (draw_unit w 12)
                ltac:(lia)).
  lia.
Qed.

(** X3.  Every generated commit, and so every commit behind a
    [/commit_history] response, has its author in [DEVELOPERS], a message
    ["<type>: <text>"] with the type in [COMMIT_TYPES] and the text in
    [COMMIT_MESSAGES], [files_changed] in [[1, 15]], [insertions] in
    [[5, 200]] and [deletions] in [[1, 100]]. *)
Theorem commit_fields_from_catalog :
  (forall (svc : string) (ts : Datetime.datetime) (w : World),
      commit_fields_in_range (fst (generate_commit svc ts w)))
  /\ (forall (n : Z) (w : World),
         Forall (fun r => commit_fields_in_range (payload r))
                (fst (sorted_commits n (clock w - Datetime.days 30) w))).
Proof.
  split; [exact commit_fields_generated|].
  intros n w. apply sorted_commits_Forall. intros svc w0.
  unfold generate_commit_record. rewrite !bind_run; cbn [fst ret payload].
  apply commit_fields_generated.
Qed.


(** ** One step of a list comprehension *)

Lemma mapM_cons {A B} (f : A -> M B) (x : A) (rest : list A) (w : World) :
  mapM f (x :: rest) w
  = (fst (f x w) :: fst (mapM f rest (snd (f x w))),
     snd (mapM f rest (snd (f x w)))).
Proof.
  cbn [mapM]. rewrite !bind_run. reflexivity.
Qed.

(** ** Log lines *)

Lemma Qle_bool_scaled (c c' total u : Q) :
  (c == c')%Q -> (total == 1)%Q ->
  Qle_bool c (u * total) = Qle_bool c' u.
Proof.
  intros Hc Ht. apply eq_true_iff_eq. rewrite !Qle_bool_iff.
  rewrite Hc, Ht, Qmult_1_r. reflexivity.
Qed.

Lemma choices_weighted_levels (w : World) :
  Random.choices_weighted "" LOG_LEVELS LOG_LEVEL_WEIGHTS w
  = (level_of (draw w 0), advance 1 w).
Proof.
  unfold Random.choices_weighted. rewrite bind_run, random_run; cbn [fst snd].
  unfold ret. f_equal.
  change (Random.accumulate 0 LOG_LEVEL_WEIGHTS)
    with [6 # 10; 850 # 1000; 9500 # 10000; 1000000 # 1000000]%Q.
  cbn [last List.length LOG_LEVELS Nat.sub Random.bisect].
  rewrite (Qle_bool_scaled (6 # 10) (6 # 10)),
    (Qle_bool_scaled (850 # 1000) (85 # 100)),
    (Qle_bool_scaled (9500 # 10000) (95 # 100)) by reflexivity.
  unfold level_of, Py.ltb.
  destruct (Qle_bool (6 # 10) (draw w 0)); [|reflexivity].
  destruct (Qle_bool (85 # 100) (draw w 0)); [|reflexivity].
  destruct (Qle_bool (95 # 100) (draw w 0)); reflexivity.
Qed.

(** The line [generate_log_line] builds, in terms of the draws it
    consumes: two for a template without a placeholder, seven for one with
    a placeholder. *)
Lemma generate_log_line_run (svc : string) (ts : Datetime.datetime)
    (w : World) :
  generate_log_line svc ts w
  = (drop_last3 (Datetime.strftime_micros ts)
     ++ " [" ++ level_of (draw w 0) ++ "] [" ++ svc ++ "] " ++ log_message w,
     advance (log_draws w) w).
Proof.
  unfold generate_log_line, log_message, log_draws.
  rewrite bind_run, choices_weighted_levels; cbn [fst snd].
  rewrite bind_run, choice_pick; cbn [fst snd].
  rewrite draw_advance; cbn [Nat.add].
  rewrite bind_run.
  destruct (contains "{}" (pick "" LOG_MESSAGES (draw w 1))).
  - do 4 (rewrite bind_run, randint_run; cbn [fst snd]).
    rewrite bind_run, choice_pick; cbn [fst snd].
    unfold ret; cbn [fst snd].
    rewrite !advance_advance, !draw_advance; cbn [Nat.add].
    reflexivity.
  - unfold ret; cbn [fst snd].
    rewrite !advance_advance. reflexivity.
Qed.

Lemma level_of_away_from_edges (k : Z) :
  0 <= k < 2 ^ 53 ->
  let level := level_of (Qmake k Random.two53) in
  (k < 5404319552844595 -> level = "INFO")
  /\ (5404319552844595 < k < 7656119366529843 -> level = "DEBUG")
  /\ (7656119366529843 < k < 8556839292003942 -> level = "WARN")
  /\ (8556839292003942 < k -> level = "ERROR").
Proof.
  intros Hk level. unfold level, level_of.
  assert (E1 : Py.ltb (k # Random.two53) (6 # 10) = true
               <-> k <= 5404319552844595).
  { rewrite ltb_spec. unfold Qlt, Random.two53; cbn [Qnum Qden]. lia. }
  assert (E2 : Py.ltb (k # Random.two53) (85 # 100) = true
               <-> k <= 7656119366529843).
  { rewrite ltb_spec. unfold Qlt, Random.two53; cbn [Qnum Qden]. lia. }
  assert (E3 : Py.ltb (k # Random.two53) (95 # 100) = true
               <-> k <= 8556839292003942).
  { rewrite ltb_spec. unfold Qlt, Random.two53; cbn [Qnum Qden]. lia. }
  destruct (Py.ltb (k # Random.two53) (6 # 10));
    destruct (Py.ltb (k # Random.two53) (85 # 100));
    destruct (Py.ltb (k # Random.two53) (95 # 100));
    repeat split; intros H; try reflexivity; exfalso;
    repeat match goal with
           | E : _ = true <-> _ |- _ =>
               let E' := fresh in
               destruct E as [? E'];
               try (assert (false = true) by (apply E'; lia); discriminate)
           end;
    repeat match goal with
           | E : true = true -> _ |- _ => specialize (E eq_refl)
           end;
    lia.
Qed.

(** X5.  The level of a log line is one of [LOG_LEVELS], printed between
    the timestamp and the service, and chosen by the first output [k] of
    the generator (of 2^53 equally likely ones) through the accumulated
    weights: INFO below 5404319552844595, DEBUG between that and
    7656119366529843, WARN between that and 8556839292003942, ERROR
    above.  These three outputs are the doubles 0.6, 0.85 and 0.95, where
    the exact rationals used here for floats do not decide the level as
    binary64 does; nothing is stated at them. *)
Theorem log_level_by_weight :
  forall (svc : string) (ts : Datetime.datetime) (w : World),
    let k := tape w (cursor w) mod 2 ^ 53 in
    exists level rest : string,
      fst (generate_log_line svc ts w)
      = drop_last3 (Datetime.strftime_micros ts)
        ++ " [" ++ level ++ "] [" ++ svc ++ "] " ++ rest
      /\ In level LOG_LEVELS
      /\ (k < 5404319552844595 -> level = "INFO")
      /\ (5404319552844595 < k < 7656119366529843 -> level = "DEBUG")
      /\ (7656119366529843 < k < 8556839292003942 -> level = "WARN")
      /\ (8556839292003942 < k -> level = "ERROR").
Proof.
  intros svc ts w k.
  exists (level_of (draw w 0)), (log_message w).
  split; [now rewrite generate_log_line_run|].
  split.
  { unfold level_of.
    destruct (Py.ltb (draw w 0) (6 # 10)), (Py.ltb (draw w 0) (85 # 100)),
      (Py.ltb (draw w 0) (95 # 100)); simpl; tauto. }
  unfold draw. rewrite Nat.add_0_r.
  change (Zpos Random.two53) with (2 ^ 53). fold k.
  apply level_of_away_from_edges.
  unfold k. apply Z.mod_pos_bound. reflexivity.
Qed.

Lemma log_level_by_weight_witness :
  exists level rest : string,
    fst (generate_log_line "api-gateway" 63840911415123456 zero_world)
    = drop_last3 (Datetime.strftime_micros 63840911415123456)
      ++ " [" ++ level ++ "] [" ++ "api-gateway" ++ "] " ++ rest
    /\ level = "INFO".
Proof.
  destruct (log_level_by_weight "api-gateway" 63840911415123456 zero_world)
    as (level & rest & Hline & _ & Hinfo & _).
  exists level, rest. split; [exact Hline|].
  apply Hinfo. reflexivity.
Defined.

Lemma lacks_app (c : ascii) (a b : string) :
  lacks c (a ++ b) = lacks c a && lacks c b.
Proof.
  induction a as [|x rest IH]; simpl; [reflexivity|].
  now rewrite IH, andb_assoc.
Qed.

Lemma no_newline_lacks (s : string) : no_newline s = lacks newline_char s.
Proof. induction s as [|x rest IH]; simpl; [reflexivity | now rewrite IH]. Qed.

Lemma lacks_uint (c : ascii) (d : Decimal.uint) :
  is_digit c = false -> lacks c (NilEmpty.string_of_uint d) = true.
Proof.
  intros Hc.
  assert (Hne : forall x, is_digit x = true -> Ascii.eqb x c = false).
  { intros x Hx. destruct (Ascii.eqb_spec x c) as [->|]; [|reflexivity].
    rewrite Hx in Hc. discriminate. }
  induction d; cbn [NilEmpty.string_of_uint lacks];
    [reflexivity | rewrite IHd, Hne by reflexivity; reflexivity ..].
Qed.

Lemma lacks_str (c : ascii) (n : Z) :
  is_digit c = false -> c <> "-"%char -> lacks c (Py.str n) = true.
Proof.
  intros Hc Hminus.
  assert (Hm : Ascii.eqb "-" c = false).
  { destruct (Ascii.eqb_spec "-"%char c) as [E|]; [|reflexivity].
    now elim Hminus. }
  assert (H0 : Ascii.eqb "0" c = false).
  { destruct (Ascii.eqb_spec "0"%char c) as [<-|]; [|reflexivity].
    discriminate. }
  unfold Py.str, NilZero.string_of_int, NilZero.string_of_uint.
  destruct (Z.to_int n) as [d|d]; destruct d;
    cbn [lacks]; rewrite ?Hm, ?H0; cbn [negb andb];
    try reflexivity; apply (lacks_uint c _ Hc).
Qed.

Lemma lacks_zpad (c : ascii) (width : nat) (n : Z) :
  is_digit c = false -> c <> "-"%char ->
  lacks c (Datetime.zpad width n) = true.
Proof.
  intros Hc Hminus. unfold Datetime.zpad.
  rewrite lacks_app, lacks_str, andb_true_r by assumption.
  assert (H0 : Ascii.eqb "0" c = false).
  { destruct (Ascii.eqb_spec "0"%char c) as [<-|]; [|reflexivity].
    discriminate. }
  induction (width - String.length (Py.str n))%nat as [|k IH];
    cbn [repeat string_of_list_ascii lacks];
    [reflexivity | now rewrite H0, IH].
Qed.

Lemma lacks_substring (c : ascii) (s : string) :
  lacks c s = true -> forall n m, lacks c (substring n m s) = true.
Proof.
  induction s as [|x rest IH]; intros Hs n m.
  - destruct n, m; reflexivity.
  - cbn [lacks] in Hs. apply andb_true_iff in Hs as [Hx Hrest].
    destruct n as [|n]; destruct m as [|m]; cbn [substring lacks];
      rewrite ?Hx; cbn [andb]; auto.
Qed.

Lemma lacks_catalog (c : ascii) (catalog : list string) (s : string) :
  forallb (lacks c) catalog = true -> In s catalog -> lacks c s = true.
Proof.
  intros Hall Hin. rewrite forallb_forall in Hall. now apply Hall.
Qed.

Lemma reserved_not_digit (c : ascii) :
  In c reserved_chars -> is_digit c = false /\ c <> "-"%char.
Proof.
  intros [<-|[<-|[<-|[]]]]; split; (reflexivity || discriminate).
Qed.

Lemma lacks_stamp (c : ascii) (ts : Datetime.datetime) :
  In c reserved_chars ->
  lacks c (drop_last3 (Datetime.strftime_micros ts)) = true.
Proof.
  intros Hc. destruct (reserved_not_digit c Hc) as [Hd Hm].
  unfold drop_last3. apply lacks_substring.
  unfold Datetime.strftime_micros, Datetime.strftime_seconds,
    Datetime.date_part, Datetime.time_part.
  rewrite !lacks_app, !lacks_zpad by assumption.
  destruct Hc as [<-|[<-|[<-|[]]]]; reflexivity.
Qed.

Lemma lacks_level (c : ascii) (u : Q) :
  In c reserved_chars -> lacks c (level_of u) = true.
Proof.
  intros Hc. unfold level_of.
  destruct (Py.ltb u (6 # 10)), (Py.ltb u (85 # 100)), (Py.ltb u (95 # 100));
    destruct Hc as [<-|[<-|[<-|[]]]]; reflexivity.
Qed.

Lemma lacks_replacement (c : ascii) (w : World) :
  In c reserved_chars ->
  lacks c (pick "" (log_replacements w) (draw w 6)) = true.
Proof.
  intros Hc. destruct (reserved_not_digit c Hc) as [Hd Hm].
  assert (Hin : In (pick "" (log_replacements w) (draw w 6))
                   (log_replacements w)).
  { apply pick_In; [discriminate | apply draw_unit]. }
  unfold log_replacements in Hin at 2.
  destruct Hin as [<-|[<-|[<-|[<-|[]]]]];
    rewrite ?lacks_app, ?lacks_str by assumption;
    destruct Hc as [<-|[<-|[<-|[]]]]; reflexivity.
Qed.

(** Filling a template of the catalog leaves no brace and no newline. *)
Lemma lacks_filled_template (c : ascii) (template r : string) :
  In c reserved_chars -> In template LOG_MESSAGES -> lacks c r = true ->
  lacks c (if contains "{}" template then format template r else template)
  = true.
Proof.
  intros Hc Ht Hr. unfold LOG_MESSAGES in Ht.
  destruct Hc as [<-|[<-|[<-|[]]]];
    repeat (destruct Ht as [<-|Ht];
            [cbn in Hr |- *; rewrite ?lacks_app, ?Hr; reflexivity|]);
    contradiction.
Qed.

Lemma lacks_log_message (c : ascii) (w : World) :
  In c reserved_chars -> lacks c (log_message w) = true.
Proof.
  intros Hc. unfold log_message; cbn zeta.
  apply lacks_filled_template; [exact Hc | |now apply lacks_replacement].
  apply pick_In; [discriminate | apply draw_unit].
Qed.

Lemma generate_log_line_lacks (svc : string) ts (w : World) (c : ascii) :
  In c reserved_chars -> lacks c svc = true ->
  lacks c (fst (generate_log_line svc ts w)) = true.
Proof.
  intros Hc Hsvc.
  rewrite generate_log_line_run; cbn [fst].
  rewrite !lacks_app, lacks_stamp, lacks_level, Hsvc, lacks_log_message
    by exact Hc.
  destruct Hc as [<-|[<-|[<-|[]]]]; reflexivity.
Qed.

(** X6.  A log line written for a service whose name has no brace and no
    newline has none either: the placeholder of the template is always
    filled, and the line stays on one line. *)
Theorem log_line_has_no_placeholder :
  forall (svc : string) (ts : Datetime.datetime) (w : World) (c : ascii),
    In c reserved_chars ->
    lacks c svc = true ->
    lacks c (fst (generate_log_line svc ts w)) = true.
Proof.
  intros svc ts w c. apply generate_log_line_lacks.
Qed.

Lemma log_line_has_no_placeholder_witness :
  In "{"%char reserved_chars
  /\ lacks "{" "api-gateway" = true
  /\ lacks "{" (fst (generate_log_line "api-gateway" 63840911415123456
                                       sample_world)) = true.
Proof.
  assert (H1 : In "{"%char reserved_chars) by (right; left; reflexivity).
  assert (H2 : lacks "{" "api-gateway" = true) by reflexivity.
  split; [exact H1|]. split; [exact H2|].
  exact (log_line_has_no_placeholder "api-gateway" 63840911415123456
           sample_world "{"%char H1 H2).
Defined.

(** ** Millisecond timestamps *)

Lemma string_of_revapp (d acc : Decimal.uint) :
  NilEmpty.string_of_uint (Decimal.revapp d acc)
  = NilEmpty.string_of_uint (Decimal.rev d) ++ NilEmpty.string_of_uint acc.
Proof.
  revert acc. unfold Decimal.rev.
  induction d as [|d IH|d IH|d IH|d IH|d IH|d IH|d IH|d IH|d IH|d IH];
    intros acc; cbn [Decimal.revapp]; try reflexivity;
    rewrite (IH (_ Decimal.Nil)), IH, append_assoc; reflexivity.
Qed.

Lemma revapp_digit_of (k : Z) (d acc : Decimal.uint) :
  Decimal.revapp (digit_of k d) acc = Decimal.revapp d (digit_of k acc).
Proof.
  unfold digit_of.
  destruct k as [|p|p]; try reflexivity.
  do 4 (destruct p as [p|p|]; try reflexivity).
Qed.

Lemma fixed_width_S (width : nat) (n : Z) :
  fixed_width (S width) n
  = fixed_width width (n / 10)
    ++ NilEmpty.string_of_uint (digit_of (n mod 10) Decimal.Nil).
Proof.
  unfold fixed_width; cbn [little_digits]. unfold Decimal.rev at 1.
  rewrite revapp_digit_of. apply string_of_revapp.
Qed.

Lemma length_digit (k : Z) :
  String.length (NilEmpty.string_of_uint (digit_of k Decimal.Nil)) = 1%nat.
Proof.
  unfold digit_of.
  destruct k as [|p|p]; try reflexivity.
  do 4 (destruct p as [p|p|]; try reflexivity).
Qed.

Lemma length_append (a b : string) :
  String.length (a ++ b) = (String.length a + String.length b)%nat.
Proof. induction a as [|x a IH]; simpl; [reflexivity | now rewrite IH]. Qed.

Lemma substring_prefix (a b : string) :
  substring 0 (String.length a) (a ++ b) = a.
Proof.
  induction a as [|x a IH]; simpl.
  - destruct b; reflexivity.
  - now rewrite IH.
Qed.

Lemma drop_last3_app (a t : string) :
  String.length t = 3%nat -> drop_last3 (a ++ t) = a.
Proof.
  intros Ht. unfold drop_last3.
  rewrite length_append, Ht, Nat.add_sub. apply substring_prefix.
Qed.

Lemma log_timestamp_millis :
  forall t : Datetime.datetime,
    0 <= t ->
    drop_last3 (Datetime.strftime_micros t)
    = Datetime.strftime_seconds t ++ "."
      ++ Datetime.zpad 3 (Datetime.microsecond t / 1000).
Proof.
  intros t Ht.
  destruct (time_fields_bounds t Ht) as (_ & _ & _ & Hus).
  set (us := Datetime.microsecond t) in *.
  unfold Datetime.strftime_micros. fold us.
  rewrite (zpad_fixed_width 6 us) by (simpl; lia).
  assert (Hms : 0 <= us / 1000 < 10 ^ Z.of_nat 3).
  { split; [apply Z.div_pos; lia | apply Z.div_lt_upper_bound; simpl; lia]. }
  rewrite (zpad_fixed_width 3 (us / 1000)) by (exact Hms || lia).
  rewrite (fixed_width_S 5), (fixed_width_S 4), (fixed_width_S 3).
  rewrite !Z.div_div by lia. change (10 * (10 * 10)) with 1000.
  set (c2 := NilEmpty.string_of_uint (digit_of ((us / (10 * 10)) mod 10) _)).
  set (c1 := NilEmpty.string_of_uint (digit_of ((us / 10) mod 10) _)).
  set (c0 := NilEmpty.string_of_uint (digit_of (us mod 10) _)).
  replace (Datetime.strftime_seconds t ++ "."
           ++ ((fixed_width 3 (us / 1000) ++ c2) ++ c1) ++ c0)
    with ((Datetime.strftime_seconds t ++ "." ++ fixed_width 3 (us / 1000))
          ++ (c2 ++ c1 ++ c0))
    by (rewrite !append_assoc; reflexivity).
  apply drop_last3_app.
  unfold c2, c1, c0. now rewrite !length_append, !length_digit.
Qed.

(** X7.  The timestamp of a log line is cut, not rounded, to the
    millisecond: it is the seconds format followed by a dot and the three
    digits of the whole milliseconds of the microsecond field. *)
Theorem log_timestamp_truncates_to_millisecond :
  forall t : Datetime.datetime,
    0 <= t ->
    drop_last3 (Datetime.strftime_micros t)
    = Datetime.strftime_seconds t ++ "."
      ++ Datetime.zpad 3 (Datetime.microsecond t / 1000).
Proof. exact log_timestamp_millis. Qed.

Lemma log_timestamp_truncates_to_millisecond_witness :
  0 <= 63840911415123999
  /\ drop_last3 (Datetime.strftime_micros 63840911415123999)
     = Datetime.strftime_seconds 63840911415123999 ++ "."
       ++ Datetime.zpad 3 (Datetime.microsecond 63840911415123999 / 1000).
Proof.
  assert (H : 0 <= 63840911415123999) by lia.
  split; [exact H|].
  exact (log_timestamp_truncates_to_millisecond 63840911415123999 H).
Defined.

Example log_timestamp_example :
  drop_last3 (Datetime.strftime_micros 63840911415123999)
  = "2024-01-15 10:30:15.123".
Proof. vm_compute. reflexivity. Qed.

(** ** The text blobs, line by line *)

Lemma mapM_Forall_in {A B} (f : A -> M B) (P : B -> Prop) (xs : list A) :
  (forall x w, In x xs -> P (fst (f x w))) ->
  forall w, Forall P (fst (mapM f xs w)).
Proof.
  induction xs as [|x rest IH]; intros Hf w.
  - constructor.
  - rewrite mapM_cons; cbn [fst]. constructor.
    + apply Hf. now left.
    + apply IH. intros y w0 Hy. apply Hf. now right.
Qed.

Lemma enumerate_from_In {A} (xs : list A) :
  forall start e, In e (enumerate_from start xs) -> In (snd e) xs.
Proof.
  induction xs as [|x rest IH]; intros start e; cbn [enumerate_from In].
  - tauto.
  - intros [<-|Hin]; [now left | right; eapply IH; exact Hin].
Qed.

Lemma sorted_logs_Forall_catalog (P : Stamped string -> Prop) n start :
  (forall svc w, In svc SERVICES -> P (fst (generate_log_record start svc w))) ->
  forall w, Forall P (fst (sorted_logs n start w)).
Proof.
  intros HP w. unfold sorted_logs. rewrite bind_run; cbn [fst ret].
  apply (Permutation_Forall (Permutation_sym (sort_by_perm _ _))).
  apply Forall_concat. apply mapM_Forall_in.
  intros [idx svc] w0 Hin. unfold service_logs.
  apply repeatM_Forall. intros w1. apply HP.
  apply (enumerate_from_In SERVICES 0 (idx, svc) Hin).
Qed.

Lemma sorted_commits_Forall_catalog (P : Stamped Commit -> Prop) n start :
  (forall svc w,
      In svc SERVICES -> P (fst (generate_commit_record start svc w))) ->
  forall w, Forall P (fst (sorted_commits n start w)).
Proof.
  intros HP w. unfold sorted_commits. rewrite bind_run; cbn [fst ret].
  apply (Permutation_Forall (Permutation_sym (sort_by_reverse_perm _ _))).
  apply Forall_concat. apply mapM_Forall_in.
  intros [idx svc] w0 Hin. unfold service_commits.
  apply repeatM_Forall. intros w1. apply HP.
  apply (enumerate_from_In SERVICES 0 (idx, svc) Hin).
Qed.

Lemma catalog_log_record_one_line start svc w :
  In svc SERVICES ->
  no_newline (payload (fst (generate_log_record start svc w))) = true.
Proof.
  intros Hsvc. unfold generate_log_record.
  rewrite !bind_run; cbn [fst ret payload].
  rewrite no_newline_lacks. apply generate_log_line_lacks.
  - now left.
  - apply (lacks_catalog _ SERVICES); [reflexivity | exact Hsvc].
Qed.

Lemma forallb_map_Forall {A} (f : A -> string) (l : list A) :
  Forall (fun x => no_newline (f x) = true) l ->
  forallb no_newline (map f l) = true.
Proof.
  induction 1 as [|x rest Hx _ IH]; cbn [map forallb];
    [reflexivity | now rewrite Hx, IH].
Qed.

(** X8.  For [num_logs] in [[1, 10000]] the [logs] text splits on newline
    into exactly the lines of the records, in order: [log_count] lines,
    one per record, none of them broken or merged. *)
Theorem logs_text_splits_into_lines :
  forall (num_logs : Z) (w : World),
    1 <= num_logs <= 10000 ->
    let r := fst (get_logs num_logs w) in
    let records := fst (sorted_logs num_logs (clock w - Datetime.hours 1) w) in
    split_lines (logs r) = map payload records
    /\ len (split_lines (logs r)) = log_count r
    /\ log_count r = num_logs.
Proof.
  intros n w Hn r records.
  assert (Hlen : len records = n) by (apply sorted_logs_length; lia).
  assert (Hlines : split_lines (logs r) = map payload records).
  { unfold r. rewrite get_logs_run; cbn [logs]. fold records.
    apply split_lines_join.
    - intros E. apply (f_equal (@List.length _)) in E.
      rewrite length_map in E. unfold len in Hlen. simpl in E. lia.
    - apply forallb_map_Forall.
      apply sorted_logs_Forall_catalog.
      intros svc w0. apply catalog_log_record_one_line. }
  assert (Hcount : log_count r = n).
  { unfold r. rewrite get_logs_run; cbn [log_count]. fold records.
    unfold len in *. now rewrite length_map. }
  split; [exact Hlines|].
  split; [|exact Hcount].
  rewrite Hlines, Hcount. unfold len in *. now rewrite length_map.
Qed.

Lemma logs_text_splits_into_lines_witness :
  1 <= 8 <= 10000
  /\ len (split_lines (logs (fst (get_logs 8 sample_world)))) = 8.
Proof.
  assert (H : 1 <= 8 <= 10000) by lia.
  split; [exact H|].
  destruct (logs_text_splits_into_lines 8 sample_world H) as (_ & H1 & H2).
  now rewrite H1.
Defined.

Lemma join_app (sep : string) (l1 l2 : list string) :
  l1 <> [] -> l2 <> [] ->
  Py.join sep (l1 ++ l2)%list = Py.join sep l1 ++ sep ++ Py.join sep l2.
Proof.
  intros H1 H2. induction l1 as [|x rest IH]; [contradiction|].
  destruct rest as [|y rest'].
  - destruct l2; [contradiction | reflexivity].
  - change (Py.join sep ((x :: y :: rest') ++ l2)%list)
      with (x ++ sep ++ Py.join sep ((y :: rest') ++ l2)%list).
    rewrite IH by discriminate.
    change (Py.join sep (x :: y :: rest'))
      with (x ++ sep ++ Py.join sep (y :: rest')).
    now rewrite !append_assoc.
Qed.

Lemma join_join (sep : string) (groups : list (list string)) :
  Forall (fun g => g <> []) groups ->
  Py.join sep (map (Py.join sep) groups) = Py.join sep (List.concat groups).
Proof.
  induction 1 as [|g rest Hg Hrest IH]; [reflexivity|].
  destruct rest as [|g' rest'].
  - cbn [map List.concat Py.join]. now rewrite List.app_nil_r.
  - change (List.concat (g :: g' :: rest'))
      with (g ++ List.concat (g' :: rest'))%list.
    rewrite join_app.
    + rewrite <- IH. reflexivity.
    + exact Hg.
    + inversion Hrest as [|? ? Hg' _]; subst.
      cbn [List.concat]. destruct g'; [contradiction | discriminate].
Qed.

Lemma catalog_commit_record_lines start svc w :
  In svc SERVICES ->
  forallb no_newline
    (block_lines (payload (fst (generate_commit_record start svc w)))
     ++ [""])%list = true.
Proof.
  intros Hsvc. unfold generate_commit_record.
  rewrite !bind_run; cbn [fst ret payload].
  apply generated_fields_no_newline.
  apply (no_newline_catalog SERVICES); [reflexivity | exact Hsvc].
Qed.

Lemma forallb_concat_Forall {A} (f : A -> list string) (l : list A) :
  Forall (fun x => forallb no_newline (f x) = true) l ->
  forallb no_newline (List.concat (map f l)) = true.
Proof.
  induction 1 as [|x rest Hx _ IH]; cbn [map List.concat];
    [reflexivity | now rewrite forallb_app, Hx, IH].
Qed.

(** X9.  For [num_commits] in [[1, 1000]] the [commits] text splits on
    newline into the eight lines of each commit's block, in the order of
    the records, each block followed by one empty line: nine lines per
    commit. *)
Theorem commits_text_splits_into_blocks :
  forall (num_commits : Z) (w : World),
    1 <= num_commits <= 1000 ->
    let r := fst (get_commit_history num_commits w) in
    let records :=
      fst (sorted_commits num_commits (clock w - Datetime.days 30) w) in
    split_lines (commits r)
    = List.concat
        (map (fun c => (block_lines (payload c) ++ [""])%list) records)
    /\ len (split_lines (commits r)) = 9 * num_commits.
Proof.
  intros n w Hn r records.
  assert (Hlen : len records = n) by (apply sorted_commits_length; lia).
  assert (Hlines :
            split_lines (commits r)
            = List.concat
                (map (fun c => (block_lines (payload c) ++ [""])%list)
                     records)).
  { unfold r. rewrite get_commit_history_run; cbn [commits]. fold records.
    rewrite (map_ext (fun c => format_commit (payload c))
               (fun c => Py.join newline
                           (block_lines (payload c) ++ [""])%list))
      by (intros c; apply format_commit_join).
    rewrite <- (map_map (fun c => (block_lines (payload c) ++ [""])%list)
                        (Py.join newline)).
    rewrite join_join
      by (apply Forall_forall; intros g Hg;
          apply in_map_iff in Hg as (c & <- & _); discriminate).
    apply split_lines_join.
    - destruct records as [|c rest].
      + unfold len in Hlen. simpl in Hlen. lia.
      + discriminate.
    - apply forallb_concat_Forall.
      apply sorted_commits_Forall_catalog.
      intros svc w0. apply catalog_commit_record_lines. }
  split; [exact Hlines|].
  rewrite Hlines. unfold len in *. rewrite <- Hlen.
  clear. induction records as [|c rest IH]; [reflexivity|].
  cbn [map List.concat]. rewrite length_app.
  cbn [List.length block_lines app] in *. lia.
Qed.

Lemma commits_text_splits_into_blocks_witness :
  1 <= 3 <= 1000
  /\ len (split_lines (commits (fst (get_commit_history 3 sample_world))))
     = 9 * 3.
Proof.
  assert (H : 1 <= 3 <= 1000) by lia.
  split; [exact H|].
  exact (proj2 (commits_text_splits_into_blocks 3 sample_world H)).
Defined.

(** ** Commits per service in the response *)

Lemma count_service_perm (svc : string) (l l' : list (Stamped Commit)) :
  Permutation l l' -> count_service svc l = count_service svc l'.
Proof.
  unfold count_service.
  induction 1 as [|x l l' _ IH|x y l|l l' l'' _ IH1 _ IH2]; cbn [filter].
  - reflexivity.
  - destruct (String.eqb _ _); cbn [List.length]; now rewrite IH.
  - destruct (String.eqb (service (payload y)) svc),
      (String.eqb (service (payload x)) svc); reflexivity.
  - now rewrite IH1.
Qed.

Lemma count_service_app (svc : string) (l l' : list (Stamped Commit)) :
  count_service svc (l ++ l')%list
  = (count_service svc l + count_service svc l')%nat.
Proof. unfold count_service. now rewrite filter_app, length_app. Qed.

Lemma count_service_own (svc : string) (b : list (Stamped Commit)) :
  Forall (fun r => service (payload r) = svc) b ->
  count_service svc b = List.length b.
Proof.
  unfold count_service. induction 1 as [|r rest Hr _ IH]; cbn [filter].
  - reflexivity.
  - rewrite Hr, String.eqb_refl. cbn [List.length]. now rewrite IH.
Qed.

Lemma count_service_other (svc other : string) (b : list (Stamped Commit)) :
  other <> svc ->
  Forall (fun r => service (payload r) = other) b ->
  count_service svc b = 0%nat.
Proof.
  intros Hne. unfold count_service.
  induction 1 as [|r rest Hr _ IH]; cbn [filter]; [reflexivity|].
  rewrite Hr. destruct (String.eqb_spec other svc); [contradiction | exact IH].
Qed.

Lemma count_service_absent (svc : string) (entries : list (Z * string))
    (blocks : list (list (Stamped Commit))) :
  Forall2 (fun e b => Forall (fun r => service (payload r) = snd e) b)
          entries blocks ->
  ~ In svc (map snd entries) ->
  count_service svc (List.concat blocks) = 0%nat.
Proof.
  induction 1 as [|e b entries blocks Hb _ IH]; intros Hnot.
  - reflexivity.
  - cbn [List.concat]. rewrite count_service_app.
    rewrite (count_service_other svc (snd e) b); [|intros E|exact Hb].
    + apply IH. intros Hin. apply Hnot. now right.
    + apply Hnot. left. exact E.
Qed.

Lemma count_service_in_blocks (entries : list (Z * string))
    (blocks : list (list (Stamped Commit))) :
  Forall2 (fun e b => Forall (fun r => service (payload r) = snd e) b)
          entries blocks ->
  NoDup (map snd entries) ->
  forall (i : nat) (e : Z * string),
    nth_error entries i = Some e ->
    count_service (snd e) (List.concat blocks)
    = List.length (nth i blocks []).
Proof.
  induction 1 as [|e0 b entries blocks Hb Hrest IH]; intros Hnd i e Hi.
  - destruct i; discriminate.
  - cbn [map] in Hnd. inversion Hnd as [|? ? Hnotin Hnd']; subst.
    cbn [List.concat]. rewrite count_service_app.
    destruct i as [|i]; cbn [nth_error nth] in *.
    + injection Hi as <-.
      rewrite (count_service_own _ b Hb).
      rewrite (count_service_absent _ entries blocks Hrest Hnotin). lia.
    + assert (Hin : In (snd e) (map snd entries)).
      { apply in_map. eapply nth_error_In. exact Hi. }
      rewrite (count_service_other (snd e) (snd e0) b); [|intros E|exact Hb].
      * now apply IH.
      * apply Hnotin. now rewrite E.
Qed.

Lemma services_NoDup : NoDup (map snd (enumerate SERVICES)).
Proof.
  unfold enumerate, SERVICES; cbn [enumerate_from map snd].
  repeat (constructor; [simpl; intuition discriminate|]). constructor.
Qed.

Lemma enumerate_nth_error (idx : nat) (svc : string) :
  nth_error SERVICES idx = Some svc ->
  nth_error (enumerate SERVICES) idx = Some (Z.of_nat idx, svc)
  /\ nth idx positions 0 = Z.of_nat idx /\ (idx < 6)%nat.
Proof.
  intros H.
  do 6 (destruct idx as [|idx];
        [injection H as <-; repeat split; lia|]).
  destruct idx; discriminate.
Qed.

(** X10.  For [num_commits] in [[1, 1000]], the sorted commits of the
    response still hold, for the service at each catalog position, exactly
    the number of commits allotted to that position. *)
Theorem commits_per_service_in_response :
  forall (num_commits : Z) (w : World) (idx : nat) (svc : string),
    1 <= num_commits <= 1000 ->
    nth_error SERVICES idx = Some svc ->
    Z.of_nat
      (count_service svc
         (fst (sorted_commits num_commits (clock w - Datetime.days 30) w)))
    = service_commit_count num_commits (Z.of_nat idx).
Proof.
  intros n w idx svc Hn Hidx.
  destruct (enumerate_nth_error idx svc Hidx) as (Hentry & Hpos & Hlt).
  set (start := clock w - Datetime.days 30).
  unfold sorted_commits. rewrite bind_run; cbn [fst ret].
  rewrite (count_service_perm svc _ _ (sort_by_reverse_perm timestamp _)).
  set (blocks := fst (mapM (service_commits n start) (enumerate SERVICES) w)).
  assert (Hown : Forall2 (fun e b =>
                            Forall (fun r => service (payload r) = snd e) b)
                         (enumerate SERVICES) blocks).
  { apply mapM_Forall2. intros; apply service_commits_owner. }
  pose proof (count_service_in_blocks _ _ Hown services_NoDup idx
                (Z.of_nat idx, svc) Hentry) as Hcount.
  cbn [snd] in Hcount. rewrite Hcount.
  pose proof (commit_blocks_lengths n start w) as Hlens. fold blocks in Hlens.
  apply (f_equal
           (fun l => nth idx l (List.length (@nil (Stamped Commit)))))
    in Hlens.
  rewrite (map_nth (@List.length _) blocks [] idx) in Hlens.
  rewrite Hlens.
  rewrite (nth_indep _ (List.length (@nil (Stamped Commit)))
             (Z.to_nat (service_commit_count n 0)))
    by (rewrite length_map; exact Hlt).
  rewrite (map_nth (fun i => Z.to_nat (service_commit_count n i))
                   positions 0 idx).
  rewrite Hpos. apply Z2Nat.id.
  rewrite service_commit_count_eq. apply split_nonneg. lia.
Qed.

Lemma commits_per_service_in_response_witness :
  1 <= 8 <= 1000
  /\ nth_error SERVICES 1 = Some "user-service"
  /\ Z.of_nat
       (count_service "user-service"
          (fst (sorted_commits 8 (clock sample_world - Datetime.days 30)
                               sample_world)))
     = service_commit_count 8 1.
Proof.
  assert (H1 : 1 <= 8 <= 1000) by lia.
  assert (H2 : nth_error SERVICES 1 = Some "user-service") by reflexivity.
  split; [exact H1|]. split; [exact H2|].
  exact (commits_per_service_in_response 8 sample_world 1 "user-service"
           H1 H2).
Defined.

(** ** Reading a commit block back *)

Lemma append_inj_l (a x y : string) : a ++ x = a ++ y -> x = y.
Proof.
  induction a as [|c a IH]; cbn [append]; intros H; [exact H|].
  injection H as H. now apply IH.
Qed.

Lemma to_int_not_nil (n : Z) :
  Z.to_int n <> Decimal.Pos Decimal.Nil
  /\ Z.to_int n <> Decimal.Neg Decimal.Nil.
Proof.
  destruct n as [|p|p]; cbn [Z.to_int]; split; try discriminate;
    intros E; injection E as E;
    exact (DecimalPos.Unsigned.to_uint_nonnil p E).
Qed.

Lemma str_inj (n m : Z) : Py.str n = Py.str m -> n = m.
Proof.
  unfold Py.str. intros H.
  apply (f_equal NilZero.int_of_string) in H.
  destruct (to_int_not_nil n) as [Hn1 Hn2].
  destruct (to_int_not_nil m) as [Hm1 Hm2].
  rewrite !NilZero.isi in H by assumption.
  injection H as H. now apply DecimalZ.to_int_inj.
Qed.

Lemma split_at_space (a a' x y : string) :
  lacks " " a = true -> lacks " " a' = true ->
  a ++ String " " x = a' ++ String " " y -> a = a' /\ x = y.
Proof.
  revert a'. induction a as [|c a IH]; intros a' Ha Ha' H.
  - destruct a' as [|c' a']; cbn [append] in H.
    + injection H as H. now split.
    + injection H as Hc _. subst c'. discriminate.
  - destruct a' as [|c' a']; cbn [append] in H.
    + injection H as Hc _. subst c. discriminate.
    + injection H as Hc H. subst c'.
      cbn [lacks] in Ha, Ha'.
      apply andb_true_iff in Ha as [_ Ha].
      apply andb_true_iff in Ha' as [_ Ha'].
      destruct (IH a' Ha Ha' H) as [-> ->]. now split.
Qed.

Lemma stat_line_inj (f i d f' i' d' : Z) :
  Py.str f ++ " files changed, " ++ Py.str i ++ " insertions(+), "
    ++ Py.str d ++ " deletions(-)"
  = Py.str f' ++ " files changed, " ++ Py.str i' ++ " insertions(+), "
      ++ Py.str d' ++ " deletions(-)" ->
  f = f' /\ i = i' /\ d = d'.
Proof.
  assert (Hsp : forall n, lacks " " (Py.str n) = true).
  { intros n. apply lacks_str; [reflexivity | discriminate]. }
  intros H.
  apply split_at_space in H as [Hf H]; [|apply Hsp ..].
  apply (append_inj_l "files changed, ") in H.
  apply split_at_space in H as [Hi H]; [|apply Hsp ..].
  apply (append_inj_l "insertions(+), ") in H.
  apply split_at_space in H as [Hd _]; [|apply Hsp ..].
  repeat split; now apply str_inj.
Qed.

Lemma block_lines_one_line (c : Commit) :
  one_line_fields c = true ->
  forallb no_newline (block_lines c ++ [""])%list = true.
Proof.
  unfold one_line_fields. intros H.
  repeat (apply andb_true_iff in H as [H ?]).
  unfold block_lines. cbn [app forallb].
  rewrite !no_newline_app, !no_newline_str.
  repeat match goal with Hf : no_newline _ = true |- _ => rewrite Hf; clear Hf end.
  reflexivity.
Qed.

Lemma split_lines_format_commit (c : Commit) :
  one_line_fields c = true ->
  split_lines (format_commit c) = (block_lines c ++ [""])%list.
Proof.
  intros H. rewrite format_commit_join. apply split_lines_join.
  - discriminate.
  - now apply block_lines_one_line.
Qed.

(** X14.  The block determines the commit: two commits whose text fields
    hold no newline and that are formatted to the same text are the same
    commit, field by field. *)
Theorem format_commit_injective :
  forall c1 c2 : Commit,
    one_line_fields c1 = true ->
    one_line_fields c2 = true ->
    format_commit c1 = format_commit c2 ->
    c1 = c2.
Proof.
  intros c1 c2 H1 H2 Heq.
  apply (f_equal split_lines) in Heq.
  rewrite !split_lines_format_commit in Heq by assumption.
  unfold block_lines in Heq. cbn [app] in Heq.
  injection Heq as Hhash Hauthor Hdate Hservice Hmessage Hstat.
  apply stat_line_inj in Hstat as (Hf & Hi & Hd).
  destruct c1, c2; cbn in *. subst. reflexivity.
Qed.

Lemma format_commit_injective_witness :
  one_line_fields
    (mkCommit "08f6d4b" "bob.smith" "2024-01-03 18:25:30"
              "docs: update API documentation" "api-gateway" 8 195 42) = true
  /\ (format_commit
        (mkCommit "08f6d4b" "bob.smith" "2024-01-03 18:25:30"
                  "docs: update API documentation" "api-gateway" 8 195 42)
      = format_commit
          (mkCommit "08f6d4b" "bob.smith" "2024-01-03 18:25:30"
                    "docs: update API documentation" "api-gateway" 8 195 42)
      -> mkCommit "08f6d4b" "bob.smith" "2024-01-03 18:25:30"
                  "docs: update API documentation" "api-gateway" 8 195 42
         = mkCommit "08f6d4b" "bob.smith" "2024-01-03 18:25:30"
                    "docs: update API documentation" "api-gateway" 8 195 42).
Proof.
  assert (H : one_line_fields
                (mkCommit "08f6d4b" "bob.smith" "2024-01-03 18:25:30"
                          "docs: update API documentation" "api-gateway"
                          8 195 42) = true) by reflexivity.
  split; [exact H|].
  exact (format_commit_injective _ _ H H).
Defined.

(** ** Every combination can be drawn *)

(** Every element of a sequence is the choice for some generator output. *)
Lemma pick_reachable {A} (d x : A) (seq : list A) :
  In x seq -> len seq <= 2 ^ 53 ->
  exists k : Z,
    pick d seq (Qmake (k mod Zpos Random.two53) Random.two53) = x.
Proof.
  intros Hin Hlen.
  destruct (In_nth seq x d Hin) as (i & Hi & Hnth).
  set (n := len seq) in *.
  assert (Hn : Z.of_nat i < n) by (unfold n, len; lia).
  set (P := 2 ^ 53) in *.
  assert (HP : P = 9007199254740992) by reflexivity.
  set (k := (Z.of_nat i * P + n - 1) / n).
  assert (Hk : Z.of_nat i * P <= k * n < Z.of_nat i * P + n).
  { pose proof (Z.div_mod (Z.of_nat i * P + n - 1) n ltac:(lia)) as Hdm.
    pose proof (Z.mod_pos_bound (Z.of_nat i * P + n - 1) n ltac:(lia)) as Hr.
    fold k in Hdm. lia. }
  assert (Hk0 : 0 <= k < P) by nia.
  exists k.
  change (Zpos Random.two53) with P. rewrite Z.mod_small by exact Hk0.
  unfold pick. fold n.
  assert (Hfloor : Qfloor ((k # Random.two53) * inject_Z n) = Z.of_nat i).
  { unfold Qfloor, Qmult, inject_Z; cbn [Qnum Qden].
    rewrite Pos.mul_1_r. change (Zpos Random.two53) with P.
    symmetry. apply Z.div_unique with (k * n - Z.of_nat i * P); lia. }
  rewrite Hfloor, Nat2Z.id. exact Hnth.
Qed.

(** X15.  The hash characters, the author, the commit type and the text
    are drawn independently: for every seven characters of the hex
    alphabet, every developer, every type and every text there is a run of
    the generator whose commit has exactly that hash, author and message
    (so all 210 messages occur, with every hash and author). *)
Theorem every_commit_can_be_generated :
  forall (hash_chars : list ascii) (developer commit_type text : string),
    List.length hash_chars = 7%nat ->
    Forall (fun c => In c hex_alphabet) hash_chars ->
    In developer DEVELOPERS ->
    In commit_type COMMIT_TYPES ->
    In text COMMIT_MESSAGES ->
    exists w : World,
      forall (svc : string) (ts : Datetime.datetime),
        let c := fst (generate_commit svc ts w) in
        commit_hash c = string_of_list_ascii hash_chars
        /\ author c = developer
        /\ message c = commit_type ++ ": " ++ text.
Proof.
  intros hash_chars developer commit_type text Hlen Hhex Hdev Htype Htext.
  do 7 (destruct hash_chars as [|? hash_chars]; [discriminate|]).
  destruct hash_chars; [|discriminate].
  repeat match goal with
         | H : Forall _ (_ :: _) |- _ => inversion H; subst; clear H
         end.
  repeat match goal with
         | H : In ?c hex_alphabet |- _ =>
             destruct (pick_reachable "0"%char c hex_alphabet H
                         ltac:(unfold len; simpl; lia)) as (? & ?);
             clear H
         end.
  destruct (pick_reachable "" developer DEVELOPERS Hdev
              ltac:(unfold len; simpl; lia)) as (kd & Hkd).
  destruct (pick_reachable "" commit_type COMMIT_TYPES Htype
              ltac:(unfold len; simpl; lia)) as (kt & Hkt).
  destruct (pick_reachable "" text COMMIT_MESSAGES Htext
              ltac:(unfold len; simpl; lia)) as (km & Hkm).
  match goal with
  | H0 : pick _ hex_alphabet (?k0 mod _ # _) = a,
    H1 : pick _ hex_alphabet (?k1 mod _ # _) = a0,
    H2 : pick _ hex_alphabet (?k2 mod _ # _) = a1,
    H3 : pick _ hex_alphabet (?k3 mod _ # _) = a2,
    H4 : pick _ hex_alphabet (?k4 mod _ # _) = a3,
    H5 : pick _ hex_alphabet (?k5 mod _ # _) = a4,
    H6 : pick _ hex_alphabet (?k6 mod _ # _) = a5 |- _ =>
      exists (mkWorld
                (fun i => nth i [k0; k1; k2; k3; k4; k5; k6; kd; kt; km] 0)
                0 0);
      intros svc ts c; unfold c; rewrite generate_commit_run;
      cbn [fst commit_hash author message seq map];
      unfold draw; cbn [tape cursor Nat.add nth];
      rewrite H0, H1, H2, H3, H4, H5, H6, Hkd, Hkt, Hkm
  end.
  repeat split.
Qed.

Lemma every_commit_can_be_generated_witness :
  List.length (list_ascii_of_string "00ff00a") = 7%nat
  /\ In "grace.lee" DEVELOPERS
  /\ exists w : World,
       forall (svc : string) (ts : Datetime.datetime),
         let c := fst (generate_commit svc ts w) in
         commit_hash c = "00ff00a"
         /\ author c = "grace.lee"
         /\ message c = "perf: optimize memory usage".
Proof.
  assert (H1 : List.length (list_ascii_of_string "00ff00a") = 7%nat)
    by reflexivity.
  assert (H2 : Forall (fun c => In c hex_alphabet)
                      (list_ascii_of_string "00ff00a")).
  { cbn [list_ascii_of_string].
    repeat (apply Forall_cons; [simpl; tauto|]). apply Forall_nil. }
  assert (H3 : In "grace.lee" DEVELOPERS) by (simpl; tauto).
  assert (H4 : In "perf" COMMIT_TYPES) by (simpl; tauto).
  assert (H5 : In "optimize memory usage" COMMIT_MESSAGES) by (simpl; tauto).
  split; [exact H1|]. split; [exact H3|].
  exact (every_commit_can_be_generated
           (list_ascii_of_string "00ff00a") "grace.lee" "perf"
           "optimize memory usage" H1 H2 H3 H4 H5).
Defined.

(** ** The response of [/logs], line by line *)

Lemma level_of_In (u : Q) : In (level_of u) LOG_LEVELS.
Proof.
  unfold level_of.
  destruct (Py.ltb u (6 # 10)), (Py.ltb u (85 # 100)), (Py.ltb u (95 # 100));
    simpl; tauto.
Qed.

Lemma generate_log_record_well_formed start svc w :
  0 <= start -> In svc SERVICES ->
  well_formed_log_record (fst (generate_log_record start svc w)).
Proof.
  intros Hstart Hsvc.
  pose proof (generate_log_record_within start svc w) as [Hlo _].
  unfold generate_log_record in *.
  rewrite !bind_run in *; cbn [fst ret payload timestamp] in *.
  rewrite generate_log_line_run; cbn [fst].
  set (ts := start + Datetime.seconds (fst (Random.uniform 0 3600 w))) in *.
  rewrite log_timestamp_millis by lia.
  exists (level_of (draw (snd (Random.uniform 0 3600 w)) 0)), svc,
         (log_message (snd (Random.uniform 0 3600 w))).
  split; [apply level_of_In|].
  split; [exact Hsvc|].
  split.
  - apply Forall_forall. intros c Hc. now apply lacks_log_message.
  - now rewrite !append_assoc.
Qed.

(** X17.  When the window starts within the range of [datetime], every
    record behind a [/logs] response reads
    [<seconds>.<milliseconds> [<level>] [<service>] <message>], with its
    own timestamp cut to the millisecond, a level of [LOG_LEVELS], a
    service of [SERVICES] and a message without newline or brace. *)
Theorem logs_records_well_formed :
  forall (num_logs : Z) (w : World),
    Datetime.hours 1 <= clock w ->
    Forall well_formed_log_record
           (fst (sorted_logs num_logs (clock w - Datetime.hours 1) w)).
Proof.
  intros n w Hclock. apply sorted_logs_Forall_catalog.
  intros svc w0 Hsvc. apply generate_log_record_well_formed; [lia | exact Hsvc].
Qed.

Lemma logs_records_well_formed_witness :
  Datetime.hours 1 <= clock sample_world
  /\ Forall well_formed_log_record
            (fst (sorted_logs 8 (clock sample_world - Datetime.hours 1)
                              sample_world)).
Proof.
  assert (H : Datetime.hours 1 <= clock sample_world) by (vm_compute; discriminate).
  split; [exact H|].
  exact (logs_records_well_formed 8 sample_world H).
Defined.

(** X16.  When the window starts within the range of [datetime], the two
    bounds of [time_range] are strings of the ISO 8601 shape, in both
    listing responses, and [start] is the format of the request time
    minus one hour, respectively minus thirty days. *)
Theorem time_range_is_iso :
  forall (n : Z) (w : World),
    valid_datetime (clock w) ->
    Datetime.days 30 <= clock w ->
    (let range := logs_time_range (fst (get_logs n w)) in
     range_start range = Datetime.isoformat (clock w - 3600 * 1000000)
     /\ range_end range = Datetime.isoformat (clock w)
     /\ iso8601_shape (range_start range) = true
     /\ iso8601_shape (range_end range) = true)
    /\ (let range := history_time_range (fst (get_commit_history n w)) in
        range_start range
        = Datetime.isoformat (clock w - 30 * 86400 * 1000000)
        /\ range_end range = Datetime.isoformat (clock w)
        /\ iso8601_shape (range_start range) = true
        /\ iso8601_shape (range_end range) = true).
Proof.
  intros n w Hvalid Hclock.
  assert (Hwin : forall d, 0 <= d <= Datetime.days 30 ->
                           valid_datetime (clock w - d)).
  { intros d Hd. unfold valid_datetime in *. lia. }
  split; intros range; unfold range.
  - rewrite get_logs_run; cbn [logs_time_range range_start range_end].
    repeat split; try reflexivity.
    + apply isoformat_shape, Hwin.
      unfold Datetime.hours, Datetime.days, Datetime.us_per_day,
        Datetime.us_per_second. lia.
    + now apply isoformat_shape.
  - rewrite get_commit_history_run;
      cbn [history_time_range range_start range_end].
    repeat split; try reflexivity.
    + apply isoformat_shape, Hwin.
      unfold Datetime.days, Datetime.us_per_day, Datetime.us_per_second. lia.
    + now apply isoformat_shape.
Qed.

Lemma time_range_is_iso_witness :
  valid_datetime (clock sample_world)
  /\ Datetime.days 30 <= clock sample_world
  /\ iso8601_shape
       (range_start (logs_time_range (fst (get_logs 8 sample_world)))) = true.
Proof.
  assert (H1 : valid_datetime (clock sample_world)).
  { unfold valid_datetime, sample_world, Datetime.us_per_day,
      Datetime.us_per_second; cbn [clock]. lia. }
  assert (H2 : Datetime.days 30 <= clock sample_world)
    by (vm_compute; discriminate).
  split; [exact H1|]. split; [exact H2|].
  destruct (time_range_is_iso 8 sample_world H1 H2) as [(_ & _ & H & _) _].
  exact H.
Defined.
